(** * cdlib.readwrite.io: reading and writing community partitions

    A shallow embedding of [cdlib/readwrite/io.py] and the properties of
    its CSV and JSON codecs.

    Modelling conventions.
    - Python text is a [string]; a character is a code point below 256.
    - A Python value is a term of [value]; dictionaries keep insertion
      order and have text keys, as every dictionary decoded from JSON has.
    - An exception is a term of [exn]; computations that may raise return
      a [result].
    - The file store maps a path to the text that a text-mode read of that
      path delivers; the translation of line endings is not modelled.
      Opening a path for writing always succeeds; opening a missing path
      for reading raises [FileNotFoundError].
    - A float is identified by the decimal number that [repr] prints for
      it (sign, digits, power of ten), or is one of nan, inf, -inf; a
      number literal denotes the float of its exact decimal value.
    - [json.dumps] and [json.loads] are the encoder and decoder of the
      Python library with their default settings, written out here as
      [json_dumps] and [json_loads]. *)

From Stdlib Require Import ZArith NArith Ascii String List Bool Lia.
From Stdlib Require Import DecimalString.
From Stdlib Require Import DecimalFacts DecimalPos DecimalN.
From stdpp Require Import gmap strings.

Import ListNotations.
Local Open Scope string_scope.
Local Open Scope list_scope.
Local Open Scope Z_scope.

(** ** Python values and exceptions *)

#[local] Set Warnings "-register-all".

Inductive pyfloat : Type :=
| FNan
| FInf (neg : bool)
| FDec (neg : bool) (digits : N) (exp10 : Z).

Inductive value : Type :=
| VNone
| VBool (b : bool)
| VInt (n : Z)
| VFloat (f : pyfloat)
| VStr (s : string)
| VList (l : list value)
| VTuple (l : list value)
| VDict (d : list (string * value)).

Inductive exn : Type :=
| FileNotFoundError (path : string)
| JSONDecodeError
| KeyError (key : value)
| IndexError
| TypeError
| ValueError
| AttributeError.

Inductive result (A : Type) : Type :=
| Ok (a : A)
| Raise (e : exn).
Arguments Ok {A} a.
Arguments Raise {A} e.

Definition bind {A B : Type} (m : result A) (k : A -> result B) : result B :=
  match m with
  | Ok a => k a
  | Raise e => Raise e
  end.

Notation "x <- m ;; k" := (bind m (fun x => k))
  (at level 100, m at next level, right associativity).

(** [[f(x) for x in xs]] and [list(map(f, xs))]: left to right, the first
    exception ends the evaluation. *)
Fixpoint mapM {A B : Type} (f : A -> result B) (xs : list A) : result (list B) :=
  match xs with
  | [] => Ok []
  | x :: xs' => y <- f x ;; ys <- mapM f xs' ;; Ok (y :: ys)
  end.

(** [acc = []; for x in xs: acc.append(f(x))], started from [acc]. *)
Fixpoint for_append {A B : Type} (f : A -> result B) (xs : list A) (acc : list B)
  : result (list B) :=
  match xs with
  | [] => Ok acc
  | x :: xs' => y <- f x ;; for_append f xs' (acc ++ [y])
  end.

(** ** Text helpers *)

Definition chr (n : nat) : ascii := ascii_of_nat n.
Definition ord (c : ascii) : nat := nat_of_ascii c.

Definition dquote : ascii := chr 34.
Definition backslash : ascii := chr 92.
Definition newline : ascii := chr 10.

Definition str1 (c : ascii) : string := String c EmptyString.

Definition chars (s : string) : list ascii := list_ascii_of_string s.
Definition text (l : list ascii) : string := string_of_list_ascii l.

(** Characters for which [str.isspace] holds, below code point 256. *)
Definition isspace (c : ascii) : bool :=
  let n := ord c in
  ((9 <=? n) && (n <=? 13) || (28 <=? n) && (n <=? 32) || (n =? 133) || (n =? 160))%nat.

Fixpoint drop_spaces (l : list ascii) : list ascii :=
  match l with
  | c :: l' => if isspace c then drop_spaces l' else l
  | [] => []
  end.

(** [s.rstrip()]: every trailing whitespace character is removed. *)
Definition rstrip (s : string) : string :=
  text (rev (drop_spaces (rev (chars s)))).

(** [sep.join(parts)] *)
Definition join (sep : string) (parts : list string) : string :=
  String.concat sep parts.

(** [s.split(sep)] for a non-empty [sep]: cut at every occurrence found
    from the left, occurrences do not overlap.  [skip] counts the
    characters of a separator still to be passed over. *)
Fixpoint split_go (sep : string) (skip : nat) (cur : list ascii) (s : string)
  : list string :=
  match s with
  | EmptyString => [text (rev cur)]
  | String c s' =>
      match skip with
      | S k => split_go sep k cur s'
      | O =>
          if String.prefix sep s
          then text (rev cur) :: split_go sep (String.length sep - 1) [] s'
          else split_go sep 0 (c :: cur) s'
      end
  end.

Definition split (s sep : string) : result (list string) :=
  match sep with
  | EmptyString => Raise ValueError
  | _ => Ok (split_go sep 0 [] s)
  end.

(** Iterating a text file: each row runs up to and including its line
    feed; a last row without line feed is delivered when it is not empty. *)
Fixpoint rows_go (cur : list ascii) (s : string) : list string :=
  match s with
  | EmptyString =>
      match cur with
      | [] => []
      | _ => [text (rev cur)]
      end
  | String c s' =>
      if Ascii.eqb c newline
      then text (rev (c :: cur)) :: rows_go [] s'
      else rows_go (c :: cur) s'
  end.

Definition rows (content : string) : list string := rows_go [] content.

(** ** Python built-ins used by the module *)

(** Dictionaries keep the order in which keys were first stored. *)
Fixpoint dict_get (k : string) (d : list (string * value)) : option value :=
  match d with
  | [] => None
  | (k', v) :: d' => if String.eqb k k' then Some v else dict_get k d'
  end.

Fixpoint dict_set (k : string) (v : value) (d : list (string * value))
  : list (string * value) :=
  match d with
  | [] => [(k, v)]
  | (k', v') :: d' =>
      if String.eqb k k' then (k, v) :: d' else (k', v') :: dict_set k v d'
  end.

Definition dict_has (k : string) (d : list (string * value)) : bool :=
  match dict_get k d with
  | Some _ => true
  | None => false
  end.

(** [for x in v]: lists and tuples yield their elements, a text yields its
    characters, a dictionary its keys; nothing else is iterable. *)
Definition iter (v : value) : result (list value) :=
  match v with
  | VList l | VTuple l => Ok l
  | VStr s => Ok (map (fun c => VStr (str1 c)) (chars s))
  | VDict d => Ok (map (fun kv => VStr (fst kv)) d)
  | _ => Raise TypeError
  end.

(** [tuple(v)] *)
Definition tuple (v : value) : result value :=
  l <- iter v ;; Ok (VTuple l).

(** [v[k]] for a text key [k] *)
Definition getitem (v : value) (k : string) : result value :=
  match v with
  | VDict d =>
      match dict_get k d with
      | Some x => Ok x
      | None => Raise (KeyError (VStr k))
      end
  | _ => Raise TypeError
  end.

(** [v[i]] for a position [i >= 0] *)
Definition index (v : value) (i : nat) : result value :=
  match v with
  | VList l | VTuple l =>
      match nth_error l i with
      | Some x => Ok x
      | None => Raise IndexError
      end
  | VStr s =>
      match String.get i s with
      | Some c => Ok (VStr (str1 c))
      | None => Raise IndexError
      end
  | VDict _ => Raise (KeyError (VInt (Z.of_nat i)))
  | _ => Raise TypeError
  end.

(** Whether [k] occurs in [s] as a run of consecutive characters. *)
Fixpoint occurs_in (k s : string) : bool :=
  String.prefix k s
  || match s with
     | EmptyString => false
     | String _ s' => occurs_in k s'
     end.

(** [k in v] for a text [k]: a key of a dictionary, an element of a list
    or tuple, a part of a text. *)
Definition contains (v : value) (k : string) : result bool :=
  match v with
  | VDict d => Ok (dict_has k d)
  | VList l | VTuple l =>
      Ok (existsb (fun x => match x with
                            | VStr s => String.eqb s k
                            | _ => false
                            end) l)
  | VStr s => Ok (occurs_in k s)
  | _ => Raise TypeError
  end.

(** [type(v) is list] *)
Definition is_list (v : value) : bool :=
  match v with
  | VList _ => true
  | _ => false
  end.

(** *** Printing numbers *)

Definition N_to_string (n : N) : string := NilZero.string_of_uint (N.to_uint n).
Definition Z_to_string (z : Z) : string := NilZero.string_of_int (Z.to_int z).

Definition zeros (n : Z) : string := text (repeat "0"%char (Z.to_nat n)).

Definition two_digits (n : Z) : string :=
  if n <? 10 then "0" +:+ Z_to_string n else Z_to_string n.

(** [float.__repr__] of a finite float printed with digits [m] and power
    of ten [e]: positional notation while the decimal point falls within
    (-4, 16], exponent notation otherwise. *)
Definition finite_repr (neg : bool) (m : N) (e : Z) : string :=
  let sign := if neg then "-" else EmptyString in
  let ds := N_to_string m in
  let n := Z.of_nat (String.length ds) in
  let decpt := n + e in
  if (m =? 0)%N then sign +:+ "0.0"
  else if (-4 <? decpt) && (decpt <=? 16) then
    if decpt <=? 0 then sign +:+ "0." +:+ zeros (- decpt) +:+ ds
    else if n <=? decpt then sign +:+ ds +:+ zeros (decpt - n) +:+ ".0"
    else sign +:+ substring 0 (Z.to_nat decpt) ds +:+ "."
              +:+ substring (Z.to_nat decpt) (Z.to_nat (n - decpt)) ds
  else
    let x := decpt - 1 in
    sign +:+ substring 0 1 ds
         +:+ (if 1 <? n then "." +:+ substring 1 (Z.to_nat (n - 1)) ds else EmptyString)
         +:+ "e" +:+ (if x <? 0 then "-" else "+") +:+ two_digits (Z.abs x).

Definition float_repr (f : pyfloat) : string :=
  match f with
  | FNan => "nan"
  | FInf false => "inf"
  | FInf true => "-inf"
  | FDec neg m e => finite_repr neg m e
  end.

(** *** [repr] and [str] *)

Definition hex_digit (n : nat) : ascii :=
  if (n <? 10)%nat then chr (48 + n) else chr (87 + n).

Definition hex2 (c : ascii) : string :=
  String (hex_digit (ord c / 16)) (str1 (hex_digit (ord c mod 16))).

Definition printable (c : ascii) : bool :=
  let n := ord c in
  ((32 <=? n) && (n <=? 126) || (161 <=? n) && negb (n =? 173))%nat.

Definition has_char (c : ascii) (s : string) : bool :=
  existsb (Ascii.eqb c) (chars s).

Definition repr_char (quote c : ascii) : string :=
  if Ascii.eqb c backslash then String backslash (str1 backslash)
  else if Ascii.eqb c quote then String backslash (str1 quote)
  else if Ascii.eqb c (chr 9) then String backslash "t"
  else if Ascii.eqb c (chr 10) then String backslash "n"
  else if Ascii.eqb c (chr 13) then String backslash "r"
  else if printable c then str1 c
  else String backslash ("x" +:+ hex2 c).

Definition str_repr (s : string) : string :=
  let quote :=
    if has_char "'"%char s && negb (has_char dquote s) then dquote else "'"%char in
  str1 quote +:+ String.concat EmptyString (map (repr_char quote) (chars s))
             +:+ str1 quote.

Fixpoint repr (v : value) : string :=
  match v with
  | VNone => "None"
  | VBool true => "True"
  | VBool false => "False"
  | VInt n => Z_to_string n
  | VFloat f => float_repr f
  | VStr s => str_repr s
  | VList l => "[" +:+ join ", " (map repr l) +:+ "]"
  | VTuple [x] => "(" +:+ repr x +:+ ",)"
  | VTuple l => "(" +:+ join ", " (map repr l) +:+ ")"
  | VDict d =>
      "{" +:+ join ", " (map (fun kv => str_repr (fst kv) +:+ ": " +:+ repr (snd kv)) d)
          +:+ "}"
  end.

(** [str(v)] *)
Definition str (v : value) : string :=
  match v with
  | VStr s => s
  | _ => repr v
  end.

(** ** The JSON encoder ([json.dumps] with its default settings) *)

Definition json_char (c : ascii) : string :=
  if Ascii.eqb c dquote then String backslash (str1 dquote)
  else if Ascii.eqb c backslash then String backslash (str1 backslash)
  else if Ascii.eqb c (chr 10) then String backslash "n"
  else if Ascii.eqb c (chr 13) then String backslash "r"
  else if Ascii.eqb c (chr 9) then String backslash "t"
  else if Ascii.eqb c (chr 8) then String backslash "b"
  else if Ascii.eqb c (chr 12) then String backslash "f"
  else if ((32 <=? ord c) && (ord c <=? 126))%nat then str1 c
  else String backslash ("u00" +:+ hex2 c).

Definition json_string (s : string) : string :=
  str1 dquote +:+ String.concat EmptyString (map json_char (chars s)) +:+ str1 dquote.

Definition json_float (f : pyfloat) : string :=
  match f with
  | FNan => "NaN"
  | FInf false => "Infinity"
  | FInf true => "-Infinity"
  | FDec neg m e => finite_repr neg m e
  end.

(** Tuples are written as arrays; items are separated by [", "] and a key
    from its value by [": "]. *)
Fixpoint json_dumps (v : value) : string :=
  match v with
  | VNone => "null"
  | VBool true => "true"
  | VBool false => "false"
  | VInt n => Z_to_string n
  | VFloat f => json_float f
  | VStr s => json_string s
  | VList l | VTuple l => "[" +:+ join ", " (map json_dumps l) +:+ "]"
  | VDict d =>
      "{" +:+ join ", " (map (fun kv => json_string (fst kv) +:+ ": " +:+ json_dumps (snd kv)) d)
          +:+ "}"
  end.

(** ** The JSON decoder ([json.loads]) *)

Definition json_ws (c : ascii) : bool :=
  let n := ord c in ((n =? 32) || (n =? 9) || (n =? 10) || (n =? 13))%nat.

Fixpoint skip_ws (s : list ascii) : list ascii :=
  match s with
  | c :: s' => if json_ws c then skip_ws s' else s
  | [] => []
  end.

Definition is_digit (c : ascii) : bool :=
  ((48 <=? ord c) && (ord c <=? 57))%nat.

Definition digit_val (c : ascii) : N := N.of_nat (ord c - 48).

Definition hex_val (c : ascii) : option N :=
  let n := ord c in
  if ((48 <=? n) && (n <=? 57))%nat then Some (N.of_nat (n - 48))
  else if ((97 <=? n) && (n <=? 102))%nat then Some (N.of_nat (n - 87))
  else if ((65 <=? n) && (n <=? 70))%nat then Some (N.of_nat (n - 55))
  else None.

Definition hex4 (a b c d : ascii) : option N :=
  match hex_val a, hex_val b, hex_val c, hex_val d with
  | Some x, Some y, Some z, Some w => Some (((x * 16 + y) * 16 + z) * 16 + w)%N
  | _, _, _, _ => None
  end.

(** The character a one-letter escape stands for. *)
Definition unescape (c : ascii) : option ascii :=
  if Ascii.eqb c dquote then Some dquote
  else if Ascii.eqb c backslash then Some backslash
  else if Ascii.eqb c "/"%char then Some "/"%char
  else if Ascii.eqb c "b"%char then Some (chr 8)
  else if Ascii.eqb c "f"%char then Some (chr 12)
  else if Ascii.eqb c "n"%char then Some (chr 10)
  else if Ascii.eqb c "r"%char then Some (chr 13)
  else if Ascii.eqb c "t"%char then Some (chr 9)
  else None.

(** Reads a text up to its closing quote; the opening quote is already
    consumed.  Raw control characters are refused, as are escapes of code
    points outside the modelled range. *)
Fixpoint scan_string (s acc : list ascii) : option (string * list ascii) :=
  match s with
  | [] => None
  | c :: r =>
      if Ascii.eqb c dquote then Some (text (rev acc), r)
      else if Ascii.eqb c backslash then
        match r with
        | [] => None
        | e :: r' =>
            match unescape e with
            | Some x => scan_string r' (x :: acc)
            | None =>
                if Ascii.eqb e "u"%char then
                  match r' with
                  | h1 :: h2 :: h3 :: h4 :: r'' =>
                      match hex4 h1 h2 h3 h4 with
                      | Some code =>
                          if (code <? 256)%N
                          then scan_string r'' (ascii_of_N code :: acc)
                          else None
                      | None => None
                      end
                  | _ => None
                  end
                else None
            end
        end
      else if (ord c <? 32)%nat then None
      else scan_string r (c :: acc)
  end.

Fixpoint take_digits (s : list ascii) : list ascii * list ascii :=
  match s with
  | c :: s' =>
      if is_digit c
      then let (ds, r) := take_digits s' in (c :: ds, r)
      else ([], s)
  | [] => ([], [])
  end.

Definition digits_to_N (ds : list ascii) : N :=
  fold_left (fun acc c => (acc * 10 + digit_val c)%N) ds 0%N.

Fixpoint drop_zeros (l : list ascii) : list ascii :=
  match l with
  | c :: l' => if Ascii.eqb c "0"%char then drop_zeros l' else l
  | [] => []
  end.

(** Drops the zeros at the end of a digit sequence and counts them. *)
Definition strip_zeros (ds : list ascii) : list ascii * Z :=
  let kept := drop_zeros (rev ds) in
  (rev kept, Z.of_nat (List.length ds - List.length kept)).

(** The float a number literal with a fraction or an exponent denotes:
    integer digits [ip], fraction digits [fp], exponent [ex]. *)
Definition make_float (neg : bool) (ip fp : list ascii) (ex : Z) : pyfloat :=
  let (ds, z) := strip_zeros (ip ++ fp) in
  let m := digits_to_N ds in
  if (m =? 0)%N then FDec neg 0 0
  else FDec neg m (ex - Z.of_nat (List.length fp) + z).

(** The integer part of a number literal: a single zero, or a non-zero
    digit followed by any digits. *)
Definition scan_int_part (s : list ascii) : option (list ascii * list ascii) :=
  match s with
  | c :: r =>
      if Ascii.eqb c "0"%char then Some ([c], r)
      else if is_digit c then Some (take_digits s)
      else None
  | [] => None
  end.

(** [(\.[0-9]+)?]: a fraction is read only when a digit follows the dot. *)
Definition scan_frac (s : list ascii) : option (list ascii) * list ascii :=
  match s with
  | c :: r =>
      if Ascii.eqb c "."%char then
        match take_digits r with
        | ([], _) => (None, s)
        | (fp, r') => (Some fp, r')
        end
      else (None, s)
  | [] => (None, s)
  end.

(** An optional sign of an exponent. *)
Definition scan_sign (s : list ascii) : bool * list ascii :=
  match s with
  | c :: r =>
      if Ascii.eqb c "-"%char then (true, r)
      else if Ascii.eqb c "+"%char then (false, r)
      else (false, s)
  | [] => (false, s)
  end.

(** An exponent is read only when a digit follows [e], [e+] or [e-]. *)
Definition scan_exp (s : list ascii) : option Z * list ascii :=
  match s with
  | c :: r =>
      if Ascii.eqb c "e"%char || Ascii.eqb c "E"%char then
        let (sgn, r1) := scan_sign r in
        match take_digits r1 with
        | ([], _) => (None, s)
        | (ds, r2) =>
            let x := Z.of_N (digits_to_N ds) in
            (Some (if sgn : bool then - x else x), r2)
        end
      else (None, s)
  | [] => (None, s)
  end.

(** The optional minus sign of a number. *)
Definition scan_minus (s : list ascii) : bool * list ascii :=
  match s with
  | c :: r => if Ascii.eqb c "-"%char then (true, r) else (false, s)
  | [] => (false, s)
  end.

Definition scan_number (s : list ascii) : option (value * list ascii) :=
  let (neg, s1) := scan_minus s in
  match scan_int_part s1 with
  | None => None
  | Some (ip, s2) =>
      let (fr, s3) := scan_frac s2 in
      let (ex, s4) := scan_exp s3 in
      match fr, ex with
      | None, None =>
          let n := Z.of_N (digits_to_N ip) in
          Some (VInt (if neg : bool then - n else n), s4)
      | _, _ =>
          let fp := match fr with Some l => l | None => [] end in
          let x := match ex with Some z => z | None => 0 end in
          Some (VFloat (make_float neg ip fp x), s4)
      end
  end.

(** [strip_prefix p s]: what follows [p] in [s], when [s] starts with [p]. *)
Fixpoint strip_prefix (p s : list ascii) : option (list ascii) :=
  match p, s with
  | [], _ => Some s
  | a :: p', b :: s' => if Ascii.eqb a b then strip_prefix p' s' else None
  | _ :: _, [] => None
  end.

(** The value [v] when the input starts with the word [k]. *)
Definition keyword (k : string) (v : value) (s : list ascii)
  : option (value * list ascii) :=
  match strip_prefix (chars k) s with
  | Some r => Some (v, r)
  | None => None
  end.

Definition or_else {A : Type} (a b : option A) : option A :=
  match a with
  | Some _ => a
  | None => b
  end.

(** The words and numbers, tried in the order of the scanner. *)
Definition scan_literal (s : list ascii) : option (value * list ascii) :=
  or_else (keyword "null" VNone s)
  (or_else (keyword "true" (VBool true) s)
  (or_else (keyword "false" (VBool false) s)
  (or_else (scan_number s)
  (or_else (keyword "NaN" (VFloat FNan) s)
  (or_else (keyword "Infinity" (VFloat (FInf false)) s)
           (keyword "-Infinity" (VFloat (FInf true)) s)))))).

(** One value, then what is left of the input.  Each call on a nested
    value spends one unit of [fuel]; [json_loads] supplies enough of it
    ([parse_value_fuel]).  The recursion limit of the interpreter is not
    modelled. *)
Fixpoint parse_value (fuel : nat) (s : list ascii) : option (value * list ascii) :=
  match fuel with
  | O => None
  | S fuel' =>
      match s with
      | [] => None
      | c :: r =>
          if Ascii.eqb c dquote then
            match scan_string r [] with
            | Some (x, r') => Some (VStr x, r')
            | None => None
            end
          else if Ascii.eqb c "{"%char then
            match skip_ws r with
            | c1 :: r1 =>
                if Ascii.eqb c1 "}"%char then Some (VDict [], r1)
                else parse_members fuel' (c1 :: r1) []
            | [] => None
            end
          else if Ascii.eqb c "["%char then
            match skip_ws r with
            | c1 :: r1 =>
                if Ascii.eqb c1 "]"%char then Some (VList [], r1)
                else parse_elems fuel' (c1 :: r1) []
            | [] => None
            end
          else scan_literal s
      end
  end

with parse_elems (fuel : nat) (s : list ascii) (acc : list value)
  : option (value * list ascii) :=
  match fuel with
  | O => None
  | S fuel' =>
      match parse_value fuel' s with
      | None => None
      | Some (v, r) =>
          match skip_ws r with
          | c :: r1 =>
              if Ascii.eqb c "]"%char then Some (VList (acc ++ [v]), r1)
              else if Ascii.eqb c ","%char
              then parse_elems fuel' (skip_ws r1) (acc ++ [v])
              else None
          | [] => None
          end
      end
  end

with parse_members (fuel : nat) (s : list ascii) (acc : list (string * value))
  : option (value * list ascii) :=
  match fuel with
  | O => None
  | S fuel' =>
      match s with
      | c :: r =>
          if Ascii.eqb c dquote then
            match scan_string r [] with
            | None => None
            | Some (k, r1) =>
                match skip_ws r1 with
                | c1 :: r2 =>
                    if Ascii.eqb c1 ":"%char then
                      match parse_value fuel' (skip_ws r2) with
                      | None => None
                      | Some (v, r3) =>
                          match skip_ws r3 with
                          | c2 :: r4 =>
                              if Ascii.eqb c2 "}"%char
                              then Some (VDict (dict_set k v acc), r4)
                              else if Ascii.eqb c2 ","%char
                              then parse_members fuel' (skip_ws r4) (dict_set k v acc)
                              else None
                          | [] => None
                          end
                      end
                    else None
                | [] => None
                end
            end
          else None
      | [] => None
      end
  end.

(** [json.loads(s)]: one value surrounded by optional whitespace. *)
Definition json_loads (s : string) : result value :=
  let input := skip_ws (chars s) in
  match parse_value (2 * List.length input + 2) input with
  | Some (v, r) =>
      match skip_ws r with
      | [] => Ok v
      | _ :: _ => Raise JSONDecodeError
      end
  | None => Raise JSONDecodeError
  end.

(** ** Clustering objects *)

Inductive clustering_class : Type :=
| NodeClusteringClass
| FuzzyNodeClusteringClass
| EdgeClusteringClass.

(** A clustering object: its class ([__class__], which the readers
    reassign) and its attributes.  [allocation_matrix] is [None] when the
    object has no such attribute. *)
Module Clustering.
Record t : Type := mk {
  class : clustering_class;
  communities : value;
  graph : value;
  method_name : value;
  method_parameters : value;
  overlap : value;
  node_coverage : value;
  allocation_matrix : option value
}.

Definition set_class (c : clustering_class) (nc : t) : t :=
  mk c (communities nc) (graph nc) (method_name nc) (method_parameters nc)
     (overlap nc) (node_coverage nc) (allocation_matrix nc).

Definition set_communities (v : value) (nc : t) : t :=
  mk (class nc) v (graph nc) (method_name nc) (method_parameters nc)
     (overlap nc) (node_coverage nc) (allocation_matrix nc).

Definition set_node_coverage (v : value) (nc : t) : t :=
  mk (class nc) (communities nc) (graph nc) (method_name nc) (method_parameters nc)
     (overlap nc) v (allocation_matrix nc).

Definition set_allocation_matrix (v : value) (nc : t) : t :=
  mk (class nc) (communities nc) (graph nc) (method_name nc) (method_parameters nc)
     (overlap nc) (node_coverage nc) (Some v).
End Clustering.

(** Modelled from the spec: the class [NodeClustering] of [cdlib], which
    this module imports.  Its constructor stores the communities, the
    graph, the method name, the method parameters and the overlap flag as
    given; the node coverage starts unset and there is no allocation
    matrix. *)
Definition NodeClustering
    (communities graph method_name method_parameters overlap : value)
  : Clustering.t :=
  Clustering.mk NodeClusteringClass communities graph method_name
                method_parameters overlap VNone None.

(** Modelled from the spec: the metadata a clustering built without them
    carries ("none/empty", "unset"). *)
Definition default_method_parameters : value := VNone.
Definition default_overlap : value := VNone.

(** ** The file store *)

Definition open_read (path : string) (fs : gmap string string) : result string :=
  match fs !! path with
  | Some content => Ok content
  | None => Raise (FileNotFoundError path)
  end.

(** ** [write_community_csv] *)

(** The loop over the communities; [buf] is what has been written to the
    file so far, and stays in the file when a community cannot be
    iterated. *)
Fixpoint write_rows (delimiter : string) (cs : list value) (buf : string)
  : string * result unit :=
  match cs with
  | [] => (buf, Ok tt)
  | community :: cs' =>
      match iter community with
      | Raise e => (buf, Raise e)
      | Ok items =>
          let res := join delimiter (map str items) in
          write_rows delimiter cs' (buf +:+ res +:+ str1 newline)
      end
  end.

Definition write_community_csv
    (communities : Clustering.t) (path : string) (delimiter : string)
    (fs : gmap string string)
  : gmap string string * result unit :=
  match iter (Clustering.communities communities) with
  | Raise e => (<[path := EmptyString]> fs, Raise e)
  | Ok cs =>
      let (buf, r) := write_rows delimiter cs EmptyString in
      (<[path := buf]> fs, r)
  end.

(** ** [read_community_csv] *)

Definition read_community_csv
    (path : string) (delimiter : string) (nodetype : string -> result value)
    (fs : gmap string string)
  : result Clustering.t :=
  f <- open_read path fs ;;
  communities <-
    for_append
      (fun row =>
         tokens <- split (rstrip row) delimiter ;;
         community <- mapM nodetype tokens ;;
         Ok (VTuple community))
      (rows f) [] ;;
  Ok (NodeClustering (VList communities) VNone (VStr EmptyString)
        default_method_parameters default_overlap).

(** [nodetype=str], the default. *)
Definition nodetype_str (s : string) : result value := Ok (VStr s).

(** ** [write_community_json] *)

Definition write_community_json
    (communities : Clustering.t) (path : string) (fs : gmap string string)
  : gmap string string * result unit :=
  let partition :=
    [("communities", Clustering.communities communities);
     ("algorithm", Clustering.method_name communities);
     ("params", Clustering.method_parameters communities);
     ("overlap", Clustering.overlap communities);
     ("coverage", Clustering.node_coverage communities)] in
  let partition :=
    match Clustering.allocation_matrix communities with
    | Some m => dict_set "allocation_matrix" m partition
    | None => partition
    end in
  let js_dmp := json_dumps (VDict partition) in
  (<[path := js_dmp]> fs, Ok tt).

(** ** [read_community_json] *)

Definition read_community_json (path : string) (fs : gmap string string)
  : result Clustering.t :=
  f <- open_read path fs ;;
  coms <- json_loads f ;;
  cs <- getitem coms "communities" ;;
  cs <- iter cs ;;
  tuples <- mapM tuple cs ;;
  algorithm <- getitem coms "algorithm" ;;
  params <- getitem coms "params" ;;
  overlap <- getitem coms "overlap" ;;
  let nc := NodeClustering (VList tuples) VNone algorithm params overlap in
  coverage <- getitem coms "coverage" ;;
  let nc := Clustering.set_node_coverage coverage nc in
  has_matrix <- contains coms "allocation_matrix" ;;
  nc <- (if has_matrix : bool then
           m <- getitem coms "allocation_matrix" ;;
           Ok (Clustering.set_allocation_matrix m
                 (Clustering.set_class FuzzyNodeClusteringClass nc))
         else Ok nc) ;;
  first <- index (Clustering.communities nc) 0 ;;
  node <- index first 0 ;;
  if is_list node then
    cs <- iter (Clustering.communities nc) ;;
    cms <- for_append
             (fun c =>
                es <- iter c ;;
                cm <- for_append tuple es [] ;;
                Ok (VTuple cm))
             cs [] ;;
    Ok (Clustering.set_class EdgeClusteringClass
          (Clustering.set_communities (VList cms) nc))
  else Ok nc.

(** ** [read_community_from_json_string] *)

Definition read_community_from_json_string (json_repr : string)
  : result Clustering.t :=
  coms <- json_loads json_repr ;;
  cs <- getitem coms "communities" ;;
  cs <- iter cs ;;
  tuples <- mapM tuple cs ;;
  algorithm <- getitem coms "algorithm" ;;
  params <- getitem coms "params" ;;
  overlap <- getitem coms "overlap" ;;
  let nc := NodeClustering (VList tuples) VNone algorithm params overlap in
  coverage <- getitem coms "coverage" ;;
  let nc := Clustering.set_node_coverage coverage nc in
  has_matrix <- contains coms "allocation_matrix" ;;
  nc <- (if has_matrix : bool then
           m <- getitem coms "allocation_matrix" ;;
           Ok (Clustering.set_allocation_matrix m
                 (Clustering.set_class FuzzyNodeClusteringClass nc))
         else Ok nc) ;;
  first <- index (Clustering.communities nc) 0 ;;
  node <- index first 0 ;;
  if is_list node then
    cs <- iter (Clustering.communities nc) ;;
    cms <- for_append
             (fun c =>
                es <- iter c ;;
                cm <- for_append tuple es [] ;;
                Ok (VTuple cm))
             cs [] ;;
    Ok (Clustering.set_class EdgeClusteringClass
          (Clustering.set_communities (VList cms) nc))
  else Ok nc.

(** ** Vocabulary of the properties *)

(** What both JSON readers do with the decoded document. *)
Definition build (coms : value) : result Clustering.t :=
  cs <- getitem coms "communities" ;;
  cs <- iter cs ;;
  tuples <- mapM tuple cs ;;
  algorithm <- getitem coms "algorithm" ;;
  params <- getitem coms "params" ;;
  overlap <- getitem coms "overlap" ;;
  let nc := NodeClustering (VList tuples) VNone algorithm params overlap in
  coverage <- getitem coms "coverage" ;;
  let nc := Clustering.set_node_coverage coverage nc in
  has_matrix <- contains coms "allocation_matrix" ;;
  nc <- (if has_matrix : bool then
           m <- getitem coms "allocation_matrix" ;;
           Ok (Clustering.set_allocation_matrix m
                 (Clustering.set_class FuzzyNodeClusteringClass nc))
         else Ok nc) ;;
  first <- index (Clustering.communities nc) 0 ;;
  node <- index first 0 ;;
  if is_list node then
    cs <- iter (Clustering.communities nc) ;;
    cms <- for_append
             (fun c =>
                es <- iter c ;;
                cm <- for_append tuple es [] ;;
                Ok (VTuple cm))
             cs [] ;;
    Ok (Clustering.set_class EdgeClusteringClass
          (Clustering.set_communities (VList cms) nc))
  else Ok nc.

(** JSON texts are written with apostrophes in place of double quotes. *)
Definition quoted (s : string) : string :=
  text (map (fun c => if Ascii.eqb c "'"%char then dquote else c) (chars s)).

(** The schema error of the specification, a required key that is
    missing, is the exception a failed key access raises. *)
Definition schema_error (e : exn) : bool :=
  match e with
  | KeyError _ => true
  | _ => false
  end.

(** The out-of-bounds fault of the specification. *)
Definition index_fault (e : exn) : bool :=
  match e with
  | IndexError => true
  | _ => false
  end.

(** The keys the readers access, in the order in which they access them. *)
Definition required_keys : list string :=
  ["communities"; "algorithm"; "params"; "overlap"; "coverage"].

Definition first_missing (keys : list string) (d : list (string * value))
  : option string :=
  List.find (fun k => negb (dict_has k d)) keys.

(** Whether the value under [communities], when there is one, can be
    turned into a list of tuples. *)
Definition communities_convertible (d : list (string * value)) : bool :=
  match dict_get "communities" d with
  | Some cs =>
      match (l <- iter cs ;; mapM tuple l) with
      | Ok _ => true
      | Raise _ => false
      end
  | None => true
  end.

(** A tuple of exactly two elements. *)
Definition is_pair (v : value) : bool :=
  match v with
  | VTuple [_; _] => true
  | _ => false
  end.

(** [p] holds of every element of every community. *)
Definition every_element (p : value -> bool) (communities : value) : bool :=
  match communities with
  | VList cs =>
      forallb (fun c => match c with
                        | VTuple es => forallb p es
                        | _ => false
                        end) cs
  | _ => false
  end.

(** Arrays of nodes and arrays of edges, as the decoder delivers them. *)
Definition node_arrays (css : list (list value)) : value :=
  VList (map VList css).

Definition edge_arrays (csss : list (list (list value))) : value :=
  VList (map (fun c => VList (map VList c)) csss).

Definition node_tuples (css : list (list value)) : value :=
  VList (map VTuple css).

Definition edge_tuples (csss : list (list (list value))) : value :=
  VList (map (fun c => VTuple (map VTuple c)) csss).

(** *** The CSV reader as the specification words it *)

(** The row without its final line feed. *)
Definition strip_newline (row : string) : string :=
  match rev (chars row) with
  | c :: r => if Ascii.eqb c newline then text (rev r) else row
  | [] => row
  end.

Definition nonempty (s : string) : bool :=
  match s with
  | EmptyString => false
  | String _ _ => true
  end.

(** One community per non-empty line: the line feed is stripped, the
    line split on the delimiter, every token converted. *)
Definition read_csv_as_specified
    (content delimiter : string) (nodetype : string -> result value)
  : result (list value) :=
  mapM (fun line =>
          tokens <- split line delimiter ;;
          community <- mapM nodetype tokens ;;
          Ok (VTuple community))
       (filter (fun line => nonempty line) (map strip_newline (rows content))).

(** A line of a text file: characters other than the line feed, ended by
    a line feed, or not ended and not empty. *)
Definition is_line (row : string) : Prop :=
  exists body,
    has_char newline body = false
    /\ (row = body +:+ str1 newline \/ (row = body /\ body <> EmptyString)).

(** What the reader does with one row. *)
Definition community_of_row
    (delimiter : string) (nodetype : string -> result value) (row : string)
  : result value :=
  tokens <- split (rstrip row) delimiter ;;
  community <- mapM nodetype tokens ;;
  Ok (VTuple community).

(** Both readers give [r] for the text [json_repr]: the one that takes
    the text, and the one that takes a path, on every file holding it. *)
Definition both_readers_give (json_repr : string) (r : result Clustering.t) : Prop :=
  read_community_from_json_string json_repr = r /\
  forall (fs : gmap string string) (path : string),
    fs !! path = Some json_repr -> read_community_json path fs = r.

(** The clustering the readers hold before they look at the first node:
    its class and attributes come from the fields [d] of the document. *)
Definition before_detection
    (d : list (string * value)) (algorithm params overlap coverage : value)
    (tuples : list value)
  : Clustering.t :=
  Clustering.mk
    (if dict_has "allocation_matrix" d
     then FuzzyNodeClusteringClass else NodeClusteringClass)
    (VList tuples) VNone algorithm params overlap coverage
    (dict_get "allocation_matrix" d).

(** ** Sample partitions, documents and files *)

(** The partition of the JSON round trip: communities [[1,2],[3]] found
    by "louvain" without parameters, not overlapping, covering 0.9 of the
    nodes, and carrying no allocation matrix. *)
Definition louvain_partition (c : clustering_class) (graph : value) : Clustering.t :=
  Clustering.mk c
    (VList [VList [VInt 1; VInt 2]; VList [VInt 3]]) graph
    (VStr "louvain") (VDict []) (VBool false)
    (VFloat (FDec false 9 (-1))) None.

(** The partition of the CSV round trip: communities [("1","2"),("3",)];
    the writer reads no other attribute. *)
Definition string_partition (nc : Clustering.t) : Clustering.t :=
  Clustering.set_communities
    (VList [VTuple [VStr "1"; VStr "2"]; VTuple [VStr "3"]]) nc.

Definition louvain_document : string :=
  quoted "{'communities': [[1, 2], [3]], 'algorithm': 'louvain', 'params': {}, 'overlap': false, 'coverage': 0.9}".

(** Every required key, and no community. *)
Definition no_community_document : string :=
  quoted "{'communities': [], 'algorithm': 'louvain', 'params': {}, 'overlap': false, 'coverage': 1.0}".

Definition no_community_fields : list (string * value) :=
  [("communities", VList []); ("algorithm", VStr "louvain");
   ("params", VDict []); ("overlap", VBool false);
   ("coverage", VFloat (FDec false 1 0))].

(** No [algorithm]. *)
Definition no_algorithm_document : string :=
  quoted "{'communities': [[1, 2], [3]], 'params': {}, 'overlap': false, 'coverage': 0.9}".

Definition no_algorithm_fields : list (string * value) :=
  [("communities", VList [VList [VInt 1; VInt 2]; VList [VInt 3]]);
   ("params", VDict []); ("overlap", VBool false);
   ("coverage", VFloat (FDec false 9 (-1)))].

(** No [algorithm], and a number under [communities]. *)
Definition number_communities_document : string :=
  quoted "{'communities': 7, 'params': {}, 'overlap': false, 'coverage': 0.9}".

(** One community of two edges. *)
Definition edge_document : string :=
  quoted "{'communities': [[[1, 2], [2, 3]]], 'algorithm': 'hlc', 'params': {}, 'overlap': false, 'coverage': 1.0}".

Definition edge_fields : list (string * value) :=
  [("communities", VList [VList [VList [VInt 1; VInt 2]; VList [VInt 2; VInt 3]]]);
   ("algorithm", VStr "hlc"); ("params", VDict []);
   ("overlap", VBool false); ("coverage", VFloat (FDec false 1 0))].

(** One community whose only element is an array of three nodes. *)
Definition triple_document : string :=
  quoted "{'communities': [[[1, 2, 3]]], 'algorithm': 'hlc', 'params': {}, 'overlap': false, 'coverage': 1.0}".

(** One community of two edges, and an allocation matrix. *)
Definition fuzzy_edge_document : string :=
  quoted "{'allocation_matrix': {'1': [0.5]}, 'communities': [[[1, 2], [2, 3]]], 'algorithm': 'hlc', 'params': {}, 'overlap': false, 'coverage': 1.0}".

Definition fuzzy_edge_fields : list (string * value) :=
  ("allocation_matrix", VDict [("1", VList [VFloat (FDec false 5 (-1))])])
    :: edge_fields.

(** Two communities of nodes and an allocation matrix; the same fields in
    the opposite order. *)
Definition fuzzy_document : string :=
  quoted "{'communities': [[1, 2], [2, 3]], 'algorithm': 'frc_fgsn', 'params': {}, 'overlap': true, 'coverage': 1.0, 'allocation_matrix': {'2': [0.5, 0.5]}}".

Definition fuzzy_document_reordered : string :=
  quoted "{'allocation_matrix': {'2': [0.5, 0.5]}, 'coverage': 1.0, 'overlap': true, 'params': {}, 'algorithm': 'frc_fgsn', 'communities': [[1, 2], [2, 3]]}".

Definition fuzzy_matrix : value :=
  VDict [("2", VList [VFloat (FDec false 5 (-1)); VFloat (FDec false 5 (-1))])].

Definition fuzzy_fields : list (string * value) :=
  [("communities", VList [VList [VInt 1; VInt 2]; VList [VInt 2; VInt 3]]);
   ("algorithm", VStr "frc_fgsn"); ("params", VDict []);
   ("overlap", VBool true); ("coverage", VFloat (FDec false 1 0));
   ("allocation_matrix", fuzzy_matrix)].

Definition fuzzy_result : Clustering.t :=
  Clustering.mk FuzzyNodeClusteringClass
    (VList [VTuple [VInt 1; VInt 2]; VTuple [VInt 2; VInt 3]]) VNone
    (VStr "frc_fgsn") (VDict []) (VBool true) (VFloat (FDec false 1 0))
    (Some fuzzy_matrix).

(** An allocation matrix, and one community that is empty. *)
Definition fuzzy_empty_community_document : string :=
  quoted "{'communities': [[]], 'algorithm': 'frc_fgsn', 'params': {}, 'overlap': true, 'coverage': 1.0, 'allocation_matrix': {}}".

(** A second community that holds an array; the same with an allocation
    matrix. *)
Definition mixed_document : string :=
  quoted "{'communities': [[1, 2], [[2, 3], 4]], 'algorithm': 'louvain', 'params': {}, 'overlap': false, 'coverage': 1.0}".

Definition mixed_fields : list (string * value) :=
  [("communities",
    VList [VList [VInt 1; VInt 2]; VList [VList [VInt 2; VInt 3]; VInt 4]]);
   ("algorithm", VStr "louvain"); ("params", VDict []);
   ("overlap", VBool false); ("coverage", VFloat (FDec false 1 0))].

Definition mixed_fuzzy_document : string :=
  quoted "{'communities': [[1, 2], [[2, 3], 4]], 'algorithm': 'louvain', 'params': {}, 'overlap': false, 'coverage': 1.0, 'allocation_matrix': {}}".

(** The file of the lines [ls], each ended by a line feed. *)
Definition unlines (ls : list string) : string :=
  String.concat EmptyString (map (fun l => l +:+ str1 newline) ls).

(** Three lines, the second of them empty. *)
Definition blank_line_file : string :=
  unlines ["a,b"; EmptyString; "c"].

(** ** Vocabulary of the round trips *)












Definition is_tuple (v : value) : bool :=
  match v with
  | VTuple _ => true
  | _ => false
  end.

(** What holds of every clustering the JSON readers return: there is a
    first community with a first node, every community is a tuple, the
    graph is not set; an [EdgeClustering] holds tuples only, the other
    classes have a first node that is not a list, and the allocation
    matrix is there exactly for a [FuzzyNodeClustering]. *)
Definition well_formed_result (nc : Clustering.t) : Prop :=
  exists node nodes rest,
    Clustering.communities nc = VList (VTuple (node :: nodes) :: rest)
    /\ forallb is_tuple rest = true
    /\ Clustering.graph nc = VNone
    /\ match Clustering.class nc with
       | EdgeClusteringClass =>
           every_element is_tuple (Clustering.communities nc) = true
       | FuzzyNodeClusteringClass =>
           is_list node = false /\ Clustering.allocation_matrix nc <> None
       | NodeClusteringClass =>
           is_list node = false /\ Clustering.allocation_matrix nc = None
       end.


(** The conversion of one community of an [EdgeClustering]. *)
Definition edge_community (c : value) : result value :=
  es <- iter c ;; cm <- mapM tuple es ;; Ok (VTuple cm).

(** The line [write_community_csv] writes for the nodes [items]. *)
Definition csv_line (delimiter : string) (items : list value) : string :=
  join delimiter (map str items) +:+ str1 newline.

(** The text of the lines of the communities whose nodes are [iss]. *)
Definition csv_text (delimiter : string) (iss : list (list value)) : string :=
  String.concat EmptyString (map (csv_line delimiter) iss).


(** [s[n:]] *)
Fixpoint string_drop (n : nat) (s : string) : string :=
  match n, s with
  | O, _ => s
  | S _, EmptyString => EmptyString
  | S n', String _ s' => string_drop n' s'
  end.

(** The file with every row stripped of its trailing whitespace and ended
    by a line feed. *)
Definition stripped_rows (content : string) : string :=
  String.concat EmptyString
    (map (fun row => rstrip row +:+ str1 newline) (rows content)).


(** What the readers return for the file written for
    [louvain_partition]. *)
Definition louvain_result : Clustering.t :=
  Clustering.mk NodeClusteringClass
    (VList [VTuple [VInt 1; VInt 2]; VTuple [VInt 3]]) VNone
    (VStr "louvain") (VDict []) (VBool false)
    (VFloat (FDec false 9 (-1))) None.

(** A document that is the array of the communities alone. *)
Definition bare_list_document : string := "[[1, 2], [3]]".

(** An empty community before the others. *)
Definition empty_first_document : string :=
  quoted "{'communities': [[], [1, 2]], 'algorithm': 'louvain', 'params': {}, 'overlap': false, 'coverage': 1.0}".

Definition empty_first_fields : list (string * value) :=
  [("communities", VList [VList []; VList [VInt 1; VInt 2]]);
   ("algorithm", VStr "louvain"); ("params", VDict []);
   ("overlap", VBool false); ("coverage", VFloat (FDec false 1 0))].

(** A number between two communities. *)
Definition broken_partition : Clustering.t :=
  Clustering.set_communities
    (VList [VTuple [VInt 1; VInt 2]; VInt 7; VTuple [VInt 3]])
    louvain_result.

(** ** Induction on values *)

Section ValueInduction.

Variable P : value -> Prop.
Hypothesis HNone : P VNone.
Hypothesis HBool : forall b, P (VBool b).
Hypothesis HInt : forall n, P (VInt n).
Hypothesis HFloat : forall f, P (VFloat f).
Hypothesis HStr : forall s, P (VStr s).
Hypothesis HList : forall l, Forall P l -> P (VList l).
Hypothesis HTuple : forall l, Forall P l -> P (VTuple l).
Hypothesis HDict : forall d, Forall (fun kv => P (snd kv)) d -> P (VDict d).


End ValueInduction.

(** ** Basic facts *)

Lemma for_append_mapM {A B : Type} (f : A -> result B) (xs : list A) :
  forall acc, for_append f xs acc = (ys <- mapM f xs ;; Ok (acc ++ ys)).
Proof.
  induction xs as [|x xs IH]; intros acc; simpl.
  - now rewrite app_nil_r.
  - destruct (f x) as [y|e]; simpl; [|reflexivity].
    rewrite IH. destruct (mapM f xs) as [ys|e]; simpl; [|reflexivity].
    now rewrite <- app_assoc.
Qed.

Lemma for_append_nil {A B : Type} (f : A -> result B) (xs : list A) :
  for_append f xs [] = mapM f xs.
Proof.
  rewrite for_append_mapM. destruct (mapM f xs); reflexivity.
Qed.

Lemma mapM_ext {A B : Type} (f g : A -> result B) (xs : list A) :
  (forall x, f x = g x) -> mapM f xs = mapM g xs.
Proof.
  intros E. induction xs as [|x xs IH]; simpl; [reflexivity|].
  now rewrite E, IH.
Qed.

Lemma mapM_map {A B C : Type} (f : B -> result C) (g : A -> B) (xs : list A) :
  mapM f (map g xs) = mapM (fun x => f (g x)) xs.
Proof.
  induction xs as [|x xs IH]; simpl; [reflexivity|]. now rewrite IH.
Qed.

Lemma mapM_total {A B : Type} (f : A -> result B) (g : A -> B) (xs : list A) :
  (forall x, In x xs -> f x = Ok (g x)) -> mapM f xs = Ok (map g xs).
Proof.
  induction xs as [|x xs IH]; intros E; simpl; [reflexivity|].
  rewrite (E x) by now left. simpl.
  rewrite IH by (intros y Hy; apply E; now right). reflexivity.
Qed.

Lemma dict_has_get (k : string) (d : list (string * value)) (v : value) :
  dict_get k d = Some v -> dict_has k d = true.
Proof. unfold dict_has. now intros ->. Qed.

Lemma dict_has_false (k : string) (d : list (string * value)) :
  dict_has k d = false -> dict_get k d = None.
Proof. unfold dict_has. destruct (dict_get k d); [discriminate|reflexivity]. Qed.

(** The two readers share [build]. *)
Lemma read_community_from_json_string_build (json_repr : string) :
  read_community_from_json_string json_repr
  = (coms <- json_loads json_repr ;; build coms).
Proof. reflexivity. Qed.

Lemma read_community_json_build (path : string) (fs : gmap string string) :
  read_community_json path fs
  = (f <- open_read path fs ;; coms <- json_loads f ;; build coms).
Proof. reflexivity. Qed.

Lemma open_read_lookup (path content : string) (fs : gmap string string) :
  fs !! path = Some content -> open_read path fs = Ok content.
Proof. unfold open_read. now intros ->. Qed.

Lemma mapM_length {A B : Type} (f : A -> result B) (xs : list A) (ys : list B) :
  mapM f xs = Ok ys -> List.length ys = List.length xs.
Proof.
  revert ys. induction xs as [|x xs IH]; intros ys; simpl.
  - now intros [= <-].
  - destruct (f x); simpl; [|discriminate].
    destruct (mapM f xs); simpl; [|discriminate].
    intros [= <-]. simpl. now rewrite (IH _ eq_refl).
Qed.

Lemma iter_raise (v : value) (e : exn) : iter v = Raise e -> e = TypeError.
Proof. destruct v; simpl; congruence. Qed.

Lemma tuple_raise (v : value) (e : exn) : tuple v = Raise e -> e = TypeError.
Proof.
  unfold tuple. destruct (iter v) eqn:E; simpl; [discriminate|].
  intros [= <-]. eapply iter_raise, E.
Qed.

Lemma mapM_tuple_raise (l : list value) (e : exn) :
  mapM tuple l = Raise e -> e = TypeError.
Proof.
  induction l as [|v l IH]; simpl; [discriminate|].
  destruct (tuple v) eqn:E; simpl.
  - destruct (mapM tuple l); simpl; [discriminate|].
    intros [= <-]. now apply IH.
  - intros [= <-]. eapply tuple_raise, E.
Qed.

Lemma dict_get_Permutation (k : string) (d d' : list (string * value)) :
  Permutation d d' -> List.NoDup (map fst d) -> dict_get k d = dict_get k d'.
Proof.
  induction 1 as [|[k1 v1] l l' HP IH|[k1 v1] [k2 v2] l|l l' l'' HP1 IH1 HP2 IH2];
    intros Hnd.
  - reflexivity.
  - simpl. inversion Hnd; subst. now rewrite IH.
  - simpl. destruct (String.eqb k k2) eqn:E2, (String.eqb k k1) eqn:E1; try reflexivity.
    apply String.eqb_eq in E1, E2. subst.
    inversion Hnd as [|? ? Hin _]; subst. exfalso. apply Hin. now left.
  - rewrite IH1 by assumption. apply IH2.
    eapply Permutation_NoDup; [|exact Hnd]. now apply Permutation_map.
Qed.

Lemma forallb_map_eq {A B : Type} (p : B -> bool) (q : A -> bool) (f : A -> B)
    (l : list A) :
  (forall x, p (f x) = q x) -> forallb p (map f l) = forallb q l.
Proof.
  intros E. induction l as [|x l IH]; simpl; [reflexivity|]. now rewrite E, IH.
Qed.

Lemma every_element_pairs (csss : list (list (list value))) :
  every_element is_pair (edge_tuples csss)
  = forallb (forallb (fun e => Nat.eqb (List.length e) 2)) csss.
Proof.
  unfold every_element, edge_tuples. apply forallb_map_eq. intros c.
  apply forallb_map_eq. intros [|a [|b [|x e]]]; reflexivity.
Qed.

(** ** Texts and rows *)

Lemma append_cons (c : ascii) (a b : string) :
  String c a +:+ b = String c (a +:+ b).
Proof. reflexivity. Qed.

Lemma append_empty_l (s : string) : EmptyString +:+ s = s.
Proof. reflexivity. Qed.

Lemma append_empty_r (s : string) : s +:+ EmptyString = s.
Proof.
  induction s as [|c s IH]; [reflexivity|]. now rewrite append_cons, IH.
Qed.

Lemma append_assoc (a b c : string) : (a +:+ b) +:+ c = a +:+ (b +:+ c).
Proof.
  induction a as [|x a IH]; [reflexivity|]. now rewrite !append_cons, IH.
Qed.

Lemma text_app (l1 l2 : list ascii) : text (l1 ++ l2) = text l1 +:+ text l2.
Proof.
  induction l1 as [|c l1 IH]; [reflexivity|].
  cbn [app text string_of_list_ascii]. fold (text (l1 ++ l2)). fold (text l1).
  now rewrite IH, append_cons.
Qed.

Lemma text_snoc (l : list ascii) (c : ascii) (s : string) :
  text (rev (c :: l)) +:+ s = text (rev l) +:+ String c s.
Proof.
  cbn [rev]. rewrite text_app, append_assoc. reflexivity.
Qed.

Lemma concat_cons (x : string) (l : list string) :
  String.concat EmptyString (x :: l) = x +:+ String.concat EmptyString l.
Proof.
  destruct l; cbn [String.concat]; [now rewrite append_empty_r|reflexivity].
Qed.

Lemma rows_go_concat (s : string) :
  forall cur, String.concat EmptyString (rows_go cur s) = text (rev cur) +:+ s.
Proof.
  induction s as [|c s IH]; intros cur.
  - cbn [rows_go]. destruct cur as [|x cur]; [reflexivity|].
    cbn [String.concat]. symmetry. apply append_empty_r.
  - cbn [rows_go]. destruct (Ascii.eqb c newline).
    + rewrite concat_cons, IH.
      change (text (rev [])) with EmptyString.
      rewrite append_empty_l. apply text_snoc.
    + rewrite IH. apply text_snoc.
Qed.

(** The rows of a file, put end to end, are its content. *)
Lemma rows_concat (content : string) :
  String.concat EmptyString (rows content) = content.
Proof. unfold rows. now rewrite rows_go_concat. Qed.

Lemma text_rev_cons (c : ascii) (l : list ascii) :
  text (rev (c :: l)) <> EmptyString.
Proof.
  cbn [rev]. rewrite text_app. destruct (text (rev l)); discriminate.
Qed.

Lemma rows_go_nonempty (s : string) :
  forall cur, Forall (fun row => row <> EmptyString) (rows_go cur s).
Proof.
  induction s as [|c s IH]; intros cur.
  - cbn [rows_go]. destruct cur as [|x cur]; constructor; [|constructor].
    apply text_rev_cons.
  - cbn [rows_go]. destruct (Ascii.eqb c newline); [|apply IH].
    constructor; [|apply IH]. apply text_rev_cons.
Qed.

(** No row is empty: a blank line is the row made of its line feed. *)
Lemma rows_nonempty (content : string) :
  Forall (fun row => row <> EmptyString) (rows content).
Proof. apply rows_go_nonempty. Qed.

Lemma chars_text (l : list ascii) : chars (text l) = l.
Proof. apply list_ascii_of_string_of_list_ascii. Qed.

Lemma has_char_text_rev (c : ascii) (l : list ascii) :
  existsb (Ascii.eqb c) l = false -> has_char c (text (rev l)) = false.
Proof.
  unfold has_char. rewrite chars_text. intros H.
  destruct (existsb (Ascii.eqb c) (rev l)) eqn:E; [|reflexivity].
  rewrite <- H. symmetry.
  apply existsb_exists in E as [x [Hin Hx]].
  apply existsb_exists. exists x. split; [|exact Hx]. now apply in_rev.
Qed.

Lemma rows_go_lines (s : string) :
  forall cur, existsb (Ascii.eqb newline) cur = false ->
              Forall is_line (rows_go cur s).
Proof.
  induction s as [|c s IH]; intros cur Hcur.
  - cbn [rows_go]. destruct cur as [|x cur]; constructor; [|constructor].
    exists (text (rev (x :: cur))). split; [now apply has_char_text_rev|].
    right. split; [reflexivity|apply text_rev_cons].
  - cbn [rows_go]. destruct (Ascii.eqb c newline) eqn:E.
    + constructor; [|now apply IH].
      apply Ascii.eqb_eq in E. subst c.
      exists (text (rev cur)). split; [now apply has_char_text_rev|].
      left. cbn [rev]. now rewrite text_app.
    + apply IH. cbn [existsb]. rewrite Ascii.eqb_sym, E. exact Hcur.
Qed.

(** Every row is a line. *)
Lemma rows_lines (content : string) : Forall is_line (rows content).
Proof. now apply rows_go_lines. Qed.

(** ** The decoder never fails for lack of fuel *)












Lemma or_else_some {A : Type} (a b : option A) (x : A) :
  or_else a b = Some x -> a = Some x \/ b = Some x.
Proof. destruct a; simpl; auto. Qed.







(** ** Decoded objects have distinct keys *)

Lemma dict_set_keys (k : string) (v : value) (d : list (string * value)) (x : string) :
  In x (map fst (dict_set k v d)) -> x = k \/ In x (map fst d).
Proof.
  induction d as [|[k' v'] d IH]; simpl.
  - intros [<-|[]]. now left.
  - destruct (String.eqb k k') eqn:E; simpl.
    + apply String.eqb_eq in E. subst. tauto.
    + intros [<-|H]; [tauto|]. apply IH in H. tauto.
Qed.

Lemma dict_set_NoDup (k : string) (v : value) (d : list (string * value)) :
  List.NoDup (map fst d) -> List.NoDup (map fst (dict_set k v d)).
Proof.
  induction d as [|[k' v'] d IH]; simpl; intros Hnd.
  - constructor; [intros []|constructor].
  - inversion Hnd as [|? ? Hin Hnd']; subst.
    destruct (String.eqb k k') eqn:E; simpl.
    + apply String.eqb_eq in E. subst. now constructor.
    + constructor; [|now apply IH].
      intros H. apply dict_set_keys in H as [->|H]; [|contradiction].
      now rewrite String.eqb_refl in E.
Qed.

Lemma keyword_value (k : string) (v0 : value) (s : list ascii) (v : value)
    (r : list ascii) :
  keyword k v0 s = Some (v, r) -> v = v0.
Proof.
  unfold keyword. destruct (strip_prefix (chars k) s); [|discriminate].
  now intros [= <- _].
Qed.

Lemma scan_number_value (s : list ascii) (v : value) (r : list ascii) :
  scan_number s = Some (v, r) -> (exists n, v = VInt n) \/ (exists f, v = VFloat f).
Proof.
  unfold scan_number.
  destruct (scan_minus s) as [neg s1].
  destruct (scan_int_part s1) as [[ip s2]|]; [|discriminate].
  destruct (scan_frac s2) as [fr s3]. destruct (scan_exp s3) as [ex s4].
  destruct fr, ex; intros [= <- _]; eauto.
Qed.

Lemma scan_literal_not_dict (s : list ascii) (d : list (string * value))
    (r : list ascii) :
  scan_literal s <> Some (VDict d, r).
Proof.
  unfold scan_literal. intros H.
  repeat (apply or_else_some in H as [H|H]);
    try (apply keyword_value in H; discriminate).
  apply scan_number_value in H as [[n H]|[f H]]; discriminate.
Qed.

Lemma parse_distinct_keys (n : nat) :
  (forall s d r, parse_value n s = Some (VDict d, r) -> List.NoDup (map fst d))
  /\ (forall s acc d r, parse_elems n s acc <> Some (VDict d, r))
  /\ (forall s acc d r, parse_members n s acc = Some (VDict d, r) ->
                        List.NoDup (map fst acc) -> List.NoDup (map fst d)).
Proof.
  induction n as [|n [IHv [IHe IHm]]]; [repeat split; discriminate|].
  split; [|split].
  - intros s d r H. cbn [parse_value] in H.
    destruct s as [|c s]; [discriminate|].
    destruct (Ascii.eqb c dquote).
    { destruct (scan_string s []) as [[x r']|]; discriminate. }
    destruct (Ascii.eqb c "{"%char).
    { destruct (skip_ws s) as [|c1 r1]; [discriminate|].
      destruct (Ascii.eqb c1 "}"%char).
      - injection H as <- _. constructor.
      - apply IHm in H; [exact H|constructor]. }
    destruct (Ascii.eqb c "["%char).
    { destruct (skip_ws s) as [|c1 r1]; [discriminate|].
      destruct (Ascii.eqb c1 "]"%char); [discriminate|].
      now apply IHe in H. }
    now apply scan_literal_not_dict in H.
  - intros s acc d r H. cbn [parse_elems] in H.
    destruct (parse_value n s) as [[v1 r1]|]; [|discriminate].
    destruct (skip_ws r1) as [|c r2]; [discriminate|].
    destruct (Ascii.eqb c "]"%char); [discriminate|].
    destruct (Ascii.eqb c ","%char); [|discriminate].
    now apply IHe in H.
  - intros s acc d r H Hnd. cbn [parse_members] in H.
    destruct s as [|c s]; [discriminate|].
    destruct (Ascii.eqb c dquote); [|discriminate].
    destruct (scan_string s []) as [[k r1]|]; [|discriminate].
    destruct (skip_ws r1) as [|c1 r2]; [discriminate|].
    destruct (Ascii.eqb c1 ":"%char); [|discriminate].
    destruct (parse_value n (skip_ws r2)) as [[v1 r3]|]; [|discriminate].
    destruct (skip_ws r3) as [|c2 r4]; [discriminate|].
    destruct (Ascii.eqb c2 "}"%char).
    + injection H as <- _. now apply dict_set_NoDup.
    + destruct (Ascii.eqb c2 ","%char); [|discriminate].
      apply IHm in H; [exact H|]. now apply dict_set_NoDup.
Qed.

(** The keys of a decoded object are distinct. *)
Lemma json_loads_distinct_keys (s : string) (d : list (string * value)) :
  json_loads s = Ok (VDict d) -> List.NoDup (map fst d).
Proof.
  unfold json_loads.
  destruct (parse_value _ _) as [[v r]|] eqn:E; [|discriminate].
  destruct (skip_ws r); [|discriminate].
  intros [= ->]. eapply (proj1 (parse_distinct_keys _)), E.
Qed.

(** ** What the readers return on a document *)

(** The two readers share [build]. *)
Lemma both_readers_build (json_repr : string) (coms : value) :
  json_loads json_repr = Ok coms ->
  both_readers_give json_repr (build coms).
Proof.
  intros Hdoc. split.
  - rewrite read_community_from_json_string_build, Hdoc. reflexivity.
  - intros fs path Hfile.
    rewrite read_community_json_build, (open_read_lookup _ _ _ Hfile).
    cbn [bind]. rewrite Hdoc. reflexivity.
Qed.

Section Document.

Variable d : list (string * value).
Variables algorithm params overlap coverage : value.
Hypothesis Halgorithm : dict_get "algorithm" d = Some algorithm.
Hypothesis Hparams : dict_get "params" d = Some params.
Hypothesis Hoverlap : dict_get "overlap" d = Some overlap.
Hypothesis Hcoverage : dict_get "coverage" d = Some coverage.

Lemma build_detection (cs tuples : list value) :
  dict_get "communities" d = Some (VList cs) ->
  mapM tuple cs = Ok tuples ->
  build (VDict d)
  = (first <- index (VList tuples) 0 ;;
     node <- index first 0 ;;
     if is_list node then
       cms <- mapM (fun c => es <- iter c ;; cm <- mapM tuple es ;; Ok (VTuple cm))
                   tuples ;;
       Ok (Clustering.set_class EdgeClusteringClass
             (Clustering.set_communities (VList cms)
                (before_detection d algorithm params overlap coverage tuples)))
     else Ok (before_detection d algorithm params overlap coverage tuples)).
Proof.
  intros Hc Ht. unfold build, getitem, contains.
  rewrite Hc. cbn [bind iter]. rewrite Ht. cbn [bind].
  rewrite Halgorithm, Hparams, Hoverlap, Hcoverage. cbn [bind].
  unfold before_detection, dict_has.
  destruct (dict_get "allocation_matrix" d) as [m|]; cbn [bind];
    unfold Clustering.set_allocation_matrix, Clustering.set_class,
      Clustering.set_node_coverage, Clustering.set_communities, NodeClustering;
    cbn [Clustering.class Clustering.communities Clustering.graph
         Clustering.method_name Clustering.method_parameters Clustering.overlap
         Clustering.node_coverage Clustering.allocation_matrix];
    (destruct (index (VList tuples) 0) as [first|e]; [|reflexivity]);
    cbn [bind]; (destruct (index first 0) as [node|e]; [|reflexivity]);
    cbn [bind]; (destruct (is_list node); [|reflexivity]);
    cbn [bind iter]; rewrite for_append_nil;
    rewrite (mapM_ext _ (fun c => es <- iter c ;; cm <- mapM tuple es ;; Ok (VTuple cm)))
      by (intros c; destruct (iter c); [cbn [bind]; now rewrite for_append_nil|reflexivity]);
    reflexivity.
Qed.

Lemma mapM_tuple_arrays (css : list (list value)) :
  mapM tuple (map VList css) = Ok (map VTuple css).
Proof.
  induction css as [|c css IH]; [reflexivity|].
  cbn [map mapM]. rewrite IH. reflexivity.
Qed.

(** A first node that is not an array: nothing more is converted. *)
Lemma build_nodes (css : list (list value)) (node : value) (nodes : list value)
    (rest : list (list value)) :
  dict_get "communities" d = Some (node_arrays css) ->
  css = (node :: nodes) :: rest ->
  is_list node = false ->
  build (VDict d)
  = Ok (before_detection d algorithm params overlap coverage (map VTuple css)).
Proof.
  intros Hc -> Hn.
  rewrite (build_detection _ _ Hc (mapM_tuple_arrays _)).
  cbn [map index nth_error bind]. now rewrite Hn.
Qed.

(** A first node that is an array: every element of every community is
    converted. *)
Lemma build_edges (csss : list (list (list value))) (edge : list value)
    (edges : list (list value)) (rest : list (list (list value))) :
  dict_get "communities" d = Some (edge_arrays csss) ->
  csss = (edge :: edges) :: rest ->
  build (VDict d)
  = Ok (Clustering.set_class EdgeClusteringClass
          (Clustering.set_communities (edge_tuples csss)
             (before_detection d algorithm params overlap coverage
                (map (fun c => VTuple (map VList c)) csss)))).
Proof.
  intros Hc E.
  assert (Ht : mapM tuple (map (fun c => VList (map VList c)) csss)
               = Ok (map (fun c => VTuple (map VList c)) csss)).
  { rewrite mapM_map. apply mapM_total. reflexivity. }
  rewrite (build_detection _ _ Hc Ht).
  assert (Hm : mapM (fun c => es <- iter c ;; cm <- mapM tuple es ;; Ok (VTuple cm))
                 (map (fun c => VTuple (map VList c)) csss)
               = Ok (map (fun c => VTuple (map VTuple c)) csss)).
  { rewrite mapM_map. apply mapM_total. intros c _.
    cbn [iter bind]. now rewrite mapM_tuple_arrays. }
  subst csss. cbn [map index nth_error bind is_list].
  cbn [map] in Hm. rewrite Hm. reflexivity.
Qed.

End Document.

(** ** Round trips *)

(** C1. Writing the partition with communities [[1,2],[3]], method name
    "louvain", no method parameters, overlap False and node coverage 0.9
    with [write_community_json] and reading the file back with
    [read_community_json] gives a plain node clustering with the same
    communities as tuples, the same method name, overlap and node
    coverage; this holds for every store and every path, and the writer
    reports no error. *)
Theorem json_round_trip_plain
    (fs : gmap string string) (path : string) (c : clustering_class) (graph : value) :
  let written := write_community_json (louvain_partition c graph) path fs in
  snd written = Ok tt /\
  read_community_json path (fst written)
  = Ok (Clustering.mk NodeClusteringClass
          (VList [VTuple [VInt 1; VInt 2]; VTuple [VInt 3]]) VNone
          (VStr "louvain") (VDict []) (VBool false)
          (VFloat (FDec false 9 (-1))) None).
Proof.
  cbv zeta. split; [reflexivity|].
  unfold write_community_json, louvain_partition. cbn [fst Clustering.allocation_matrix].
  rewrite read_community_json_build.
  rewrite (open_read_lookup _ _ _ (lookup_insert_eq _ _ _)).
  vm_compute. reflexivity.
Qed.

(** C3. Writing a partition whose communities are [("1","2"),("3",)] with
    [write_community_csv] and delimiter "," and reading the file back
    with [read_community_csv] and [nodetype=str] gives a clustering whose
    communities are [("1","2"),("3",)]. *)
Theorem csv_round_trip_str
    (fs : gmap string string) (path : string) (nc : Clustering.t) :
  let written := write_community_csv (string_partition nc) path "," fs in
  snd written = Ok tt /\
  exists r,
    read_community_csv path "," nodetype_str (fst written) = Ok r /\
    Clustering.communities r
    = VList [VTuple [VStr "1"; VStr "2"]; VTuple [VStr "3"]].
Proof.
  cbv zeta. split; [reflexivity|].
  eexists. split.
  - unfold write_community_csv, string_partition.
    cbn [Clustering.communities Clustering.set_communities iter write_rows fst].
    unfold read_community_csv.
    rewrite (open_read_lookup _ _ _ (lookup_insert_eq _ _ _)).
    vm_compute. reflexivity.
  - reflexivity.
Qed.

(** ** Documents the readers refuse *)

Lemma build_empty_communities (d : list (string * value)) :
  dict_get "communities" d = Some (VList []) ->
  build (VDict d)
  = Raise (match first_missing required_keys d with
           | Some k => KeyError (VStr k)
           | None => IndexError
           end).
Proof.
  intros Hc. unfold build, getitem, contains, first_missing, required_keys, dict_has.
  cbn [List.find]. rewrite Hc. cbn [bind iter mapM negb].
  destruct (dict_get "algorithm" d); [|reflexivity].
  destruct (dict_get "params" d); [|reflexivity].
  destruct (dict_get "overlap" d); [|reflexivity].
  destruct (dict_get "coverage" d); [|reflexivity].
  cbn [bind negb].
  destruct (dict_get "allocation_matrix" d); reflexivity.
Qed.

(** C2, as the code has it. A document whose [communities] is an empty
    array makes both readers fail: with the [KeyError] of the first
    required key that is missing, and with [IndexError], raised when the
    first node is looked up, if none is missing. *)
Theorem empty_communities_failure
    (json_repr : string) (d : list (string * value))
    (Hdoc : json_loads json_repr = Ok (VDict d))
    (Hempty : dict_get "communities" d = Some (VList [])) :
  both_readers_give json_repr
    (Raise (match first_missing required_keys d with
            | Some k => KeyError (VStr k)
            | None => IndexError
            end)).
Proof.
  rewrite <- (build_empty_communities d Hempty).
  now apply both_readers_build.
Qed.

Lemma empty_communities_failure_witness :
  json_loads no_community_document = Ok (VDict no_community_fields)
  /\ dict_get "communities" no_community_fields = Some (VList [])
  /\ both_readers_give no_community_document (Raise IndexError).
Proof.
  split; [vm_compute; reflexivity|]. split; [reflexivity|].
  apply (empty_communities_failure no_community_document no_community_fields).
  - vm_compute. reflexivity.
  - reflexivity.
Defined.

(** C2 as stated fails: with every required key present and an empty
    [communities], both readers raise [IndexError], the out-of-bounds
    fault, and no schema error. *)
Lemma empty_communities_index_fault :
  read_community_from_json_string no_community_document = Raise IndexError
  /\ read_community_json "communities.json"
       {[ "communities.json" := no_community_document ]}
     = Raise IndexError
  /\ schema_error IndexError = false
  /\ index_fault IndexError = true.
Proof. repeat split; vm_compute; reflexivity. Qed.

Lemma build_missing_key (d : list (string * value)) (k : string) :
  first_missing required_keys d = Some k ->
  build (VDict d)
  = Raise (if communities_convertible d then KeyError (VStr k) else TypeError).
Proof.
  unfold build, getitem, contains, first_missing, required_keys,
    communities_convertible, dict_has.
  cbn [List.find].
  destruct (dict_get "communities" d) as [cs|]; cbn [bind negb];
    [|now intros [= <-]].
  destruct (iter cs) as [l|e] eqn:Ei; cbn [bind].
  2:{ intros _. now rewrite (iter_raise _ _ Ei). }
  destruct (mapM tuple l) as [tuples|e] eqn:Et; cbn [bind].
  2:{ intros _. now rewrite (mapM_tuple_raise _ _ Et). }
  destruct (dict_get "algorithm" d); cbn [bind negb]; [|now intros [= <-]].
  destruct (dict_get "params" d); cbn [bind negb]; [|now intros [= <-]].
  destruct (dict_get "overlap" d); cbn [bind negb]; [|now intros [= <-]].
  destruct (dict_get "coverage" d); cbn [bind negb]; [|now intros [= <-]].
  discriminate.
Qed.

(** C7, as the code has it. A document that lacks a required key makes
    both readers fail, and no default is put in its place.  The failure is
    the [KeyError] of the first missing key, in the order communities,
    algorithm, params, overlap, coverage; except that a [communities]
    value that cannot be turned into tuples raises [TypeError] before the
    later keys are accessed. *)
Theorem missing_key_failure
    (json_repr : string) (d : list (string * value)) (k : string)
    (Hdoc : json_loads json_repr = Ok (VDict d))
    (Hmissing : first_missing required_keys d = Some k) :
  both_readers_give json_repr
    (Raise (if communities_convertible d then KeyError (VStr k) else TypeError)).
Proof.
  rewrite <- (build_missing_key d k Hmissing).
  now apply both_readers_build.
Qed.

Lemma missing_key_failure_witness :
  json_loads no_algorithm_document = Ok (VDict no_algorithm_fields)
  /\ first_missing required_keys no_algorithm_fields = Some "algorithm"
  /\ both_readers_give no_algorithm_document (Raise (KeyError (VStr "algorithm"))).
Proof.
  split; [vm_compute; reflexivity|]. split; [reflexivity|].
  apply (missing_key_failure no_algorithm_document no_algorithm_fields "algorithm").
  - vm_compute. reflexivity.
  - reflexivity.
Defined.

(** C7 as stated fails: the document lacks [algorithm] and holds a number
    under [communities]; both readers raise [TypeError], which reports no
    missing key. *)
Lemma missing_key_type_error :
  json_loads number_communities_document
  = Ok (VDict [("communities", VInt 7); ("params", VDict []);
               ("overlap", VBool false); ("coverage", VFloat (FDec false 9 (-1)))])
  /\ read_community_from_json_string number_communities_document = Raise TypeError
  /\ read_community_json "communities.json"
       {[ "communities.json" := number_communities_document ]}
     = Raise TypeError
  /\ schema_error TypeError = false.
Proof. repeat split; vm_compute; reflexivity. Qed.

(** ** Variant detection *)

(** C4, as the code has it. For a document with the required keys whose
    [communities] is an array of arrays of arrays with a first community
    that is not empty, [read_community_json] returns an [EdgeClustering]
    in which every element of every community is the tuple of the array
    it was read from; every element is a 2-element tuple exactly when
    every such array has two entries. *)
Theorem edge_detection
    (json_repr : string) (d : list (string * value))
    (algorithm params overlap coverage : value)
    (csss : list (list (list value)))
    (edge : list value) (edges : list (list value)) (rest : list (list (list value)))
    (Hdoc : json_loads json_repr = Ok (VDict d))
    (Halgorithm : dict_get "algorithm" d = Some algorithm)
    (Hparams : dict_get "params" d = Some params)
    (Hoverlap : dict_get "overlap" d = Some overlap)
    (Hcoverage : dict_get "coverage" d = Some coverage)
    (Hcommunities : dict_get "communities" d = Some (edge_arrays csss))
    (Hfirst : csss = (edge :: edges) :: rest) :
  exists nc,
    (forall (fs : gmap string string) (path : string),
        fs !! path = Some json_repr -> read_community_json path fs = Ok nc)
    /\ Clustering.class nc = EdgeClusteringClass
    /\ Clustering.communities nc = edge_tuples csss
    /\ every_element is_pair (Clustering.communities nc)
       = forallb (forallb (fun e => Nat.eqb (List.length e) 2)) csss.
Proof.
  eexists. split; [|split; [|split]].
  - apply both_readers_build in Hdoc as [_ Hfile].
    intros fs path Hpath. rewrite (Hfile fs path Hpath).
    eapply build_edges; eassumption.
  - reflexivity.
  - reflexivity.
  - apply every_element_pairs.
Qed.

Lemma edge_detection_witness :
  exists nc,
    read_community_json "communities.json" {[ "communities.json" := edge_document ]}
    = Ok nc
    /\ Clustering.class nc = EdgeClusteringClass
    /\ Clustering.communities nc
       = VList [VTuple [VTuple [VInt 1; VInt 2]; VTuple [VInt 2; VInt 3]]]
    /\ every_element is_pair (Clustering.communities nc) = true.
Proof.
  destruct (edge_detection edge_document edge_fields
              (VStr "hlc") (VDict []) (VBool false) (VFloat (FDec false 1 0))
              [[[VInt 1; VInt 2]; [VInt 2; VInt 3]]]
              [VInt 1; VInt 2] [[VInt 2; VInt 3]] [])
    as [nc [Hread [Hclass [Hcoms Hpairs]]]].
  - vm_compute. reflexivity.
  - reflexivity.
  - reflexivity.
  - reflexivity.
  - reflexivity.
  - reflexivity.
  - reflexivity.
  - exists nc. split; [|split; [|split]].
    + apply Hread. vm_compute. reflexivity.
    + exact Hclass.
    + exact Hcoms.
    + exact Hpairs.
Defined.

(** C4 as stated fails: the first element of the first community is an
    array, the result is an [EdgeClustering], and its only element is a
    tuple of three nodes. *)
Lemma edge_detection_triple :
  exists nc,
    read_community_json "communities.json" {[ "communities.json" := triple_document ]}
    = Ok nc
    /\ Clustering.class nc = EdgeClusteringClass
    /\ Clustering.communities nc = VList [VTuple [VTuple [VInt 1; VInt 2; VInt 3]]]
    /\ every_element is_pair (Clustering.communities nc) = false.
Proof. eexists. repeat split; vm_compute; reflexivity. Qed.

(** C5, as the code has it. For a document with the required keys and
    the key [allocation_matrix] whose [communities] is an array of arrays
    of arrays with a first community that is not empty,
    [read_community_json] returns a result of class [EdgeClustering], the
    class set last, with the allocation matrix attached and the elements
    converted to tuples. *)
Theorem fuzzy_edge_detection
    (json_repr : string) (d : list (string * value))
    (algorithm params overlap coverage matrix : value)
    (csss : list (list (list value)))
    (edge : list value) (edges : list (list value)) (rest : list (list (list value)))
    (Hdoc : json_loads json_repr = Ok (VDict d))
    (Halgorithm : dict_get "algorithm" d = Some algorithm)
    (Hparams : dict_get "params" d = Some params)
    (Hoverlap : dict_get "overlap" d = Some overlap)
    (Hcoverage : dict_get "coverage" d = Some coverage)
    (Hmatrix : dict_get "allocation_matrix" d = Some matrix)
    (Hcommunities : dict_get "communities" d = Some (edge_arrays csss))
    (Hfirst : csss = (edge :: edges) :: rest) :
  forall (fs : gmap string string) (path : string),
    fs !! path = Some json_repr ->
    read_community_json path fs
    = Ok (Clustering.mk EdgeClusteringClass (edge_tuples csss) VNone
            algorithm params overlap coverage (Some matrix)).
Proof.
  intros fs path Hpath.
  apply both_readers_build in Hdoc as [_ Hfile]. rewrite (Hfile fs path Hpath).
  rewrite (build_edges d algorithm params overlap coverage
             Halgorithm Hparams Hoverlap Hcoverage csss edge edges rest
             Hcommunities Hfirst).
  unfold before_detection. rewrite Hmatrix. reflexivity.
Qed.

Lemma fuzzy_edge_detection_witness :
  read_community_json "communities.json"
    {[ "communities.json" := fuzzy_edge_document ]}
  = Ok (Clustering.mk EdgeClusteringClass
          (VList [VTuple [VTuple [VInt 1; VInt 2]; VTuple [VInt 2; VInt 3]]]) VNone
          (VStr "hlc") (VDict []) (VBool false) (VFloat (FDec false 1 0))
          (Some (VDict [("1", VList [VFloat (FDec false 5 (-1))])]))).
Proof.
  apply (fuzzy_edge_detection fuzzy_edge_document fuzzy_edge_fields
           (VStr "hlc") (VDict []) (VBool false) (VFloat (FDec false 1 0))
           (VDict [("1", VList [VFloat (FDec false 5 (-1))])])
           [[[VInt 1; VInt 2]; [VInt 2; VInt 3]]]
           [VInt 1; VInt 2] [[VInt 2; VInt 3]] []).
  - vm_compute. reflexivity.
  - reflexivity.
  - reflexivity.
  - reflexivity.
  - reflexivity.
  - reflexivity.
  - reflexivity.
  - reflexivity.
  - vm_compute. reflexivity.
Defined.

(** C5 as stated fails: the document has an allocation matrix and a first
    element that is an array; the class of the result is
    [EdgeClustering], not [FuzzyNodeClustering]. *)
Lemma fuzzy_edge_class_overwritten :
  exists nc,
    read_community_json "communities.json"
      {[ "communities.json" := fuzzy_edge_document ]}
    = Ok nc
    /\ Clustering.class nc = EdgeClusteringClass
    /\ Clustering.class nc <> FuzzyNodeClusteringClass
    /\ Clustering.allocation_matrix nc
       = Some (VDict [("1", VList [VFloat (FDec false 5 (-1))])]).
Proof.
  eexists. split; [vm_compute; reflexivity|].
  split; [reflexivity|]. split; [discriminate|reflexivity].
Qed.

(** C6, as the code has it. For a document with the required keys and
    the key [allocation_matrix] whose [communities] is an array of arrays,
    the first of them starting with a node that is not an array, both
    readers return a [FuzzyNodeClustering] with that matrix attached; and
    so they do for every document that holds the same fields in another
    order. *)
Theorem fuzzy_detection
    (json_repr : string) (d : list (string * value))
    (algorithm params overlap coverage matrix : value)
    (css : list (list value))
    (node : value) (nodes : list value) (rest : list (list value))
    (Hdoc : json_loads json_repr = Ok (VDict d))
    (Halgorithm : dict_get "algorithm" d = Some algorithm)
    (Hparams : dict_get "params" d = Some params)
    (Hoverlap : dict_get "overlap" d = Some overlap)
    (Hcoverage : dict_get "coverage" d = Some coverage)
    (Hmatrix : dict_get "allocation_matrix" d = Some matrix)
    (Hcommunities : dict_get "communities" d = Some (node_arrays css))
    (Hfirst : css = (node :: nodes) :: rest)
    (Hnode : is_list node = false) :
  let fuzzy :=
    Clustering.mk FuzzyNodeClusteringClass (node_tuples css) VNone
      algorithm params overlap coverage (Some matrix) in
  both_readers_give json_repr (Ok fuzzy)
  /\ forall (json_repr' : string) (d' : list (string * value)),
       json_loads json_repr' = Ok (VDict d') ->
       Permutation d d' ->
       both_readers_give json_repr' (Ok fuzzy).
Proof.
  assert (Hbuild : forall d0,
             (forall k, dict_get k d0 = dict_get k d) ->
             build (VDict d0)
             = Ok (Clustering.mk FuzzyNodeClusteringClass (node_tuples css) VNone
                     algorithm params overlap coverage (Some matrix))).
  { intros d0 E.
    rewrite (build_nodes d0 algorithm params overlap coverage) with
      (css := css) (node := node) (nodes := nodes) (rest := rest);
      try (rewrite E; assumption); try assumption.
    unfold before_detection, dict_has. rewrite E, Hmatrix. reflexivity. }
  cbv zeta. split.
  - rewrite <- (Hbuild d) by reflexivity. now apply both_readers_build.
  - intros json_repr' d' Hdoc' Hperm.
    rewrite <- (Hbuild d').
    + now apply both_readers_build.
    + intros k. symmetry. apply dict_get_Permutation; [exact Hperm|].
      eapply json_loads_distinct_keys, Hdoc.
Qed.

Lemma fuzzy_detection_witness :
  both_readers_give fuzzy_document (Ok fuzzy_result)
  /\ both_readers_give fuzzy_document_reordered (Ok fuzzy_result).
Proof.
  destruct (fuzzy_detection fuzzy_document fuzzy_fields
              (VStr "frc_fgsn") (VDict []) (VBool true) (VFloat (FDec false 1 0))
              fuzzy_matrix
              [[VInt 1; VInt 2]; [VInt 2; VInt 3]]
              (VInt 1) [VInt 2] [[VInt 2; VInt 3]])
    as [Hsame Hother].
  - vm_compute. reflexivity.
  - reflexivity.
  - reflexivity.
  - reflexivity.
  - reflexivity.
  - reflexivity.
  - reflexivity.
  - reflexivity.
  - reflexivity.
  - split; [exact Hsame|].
    apply (Hother fuzzy_document_reordered (rev fuzzy_fields)).
    + vm_compute. reflexivity.
    + apply Permutation_rev.
Defined.

(** C6 as stated fails.  With a [communities] array that holds one empty
    community, both readers raise [IndexError]; with a first element that
    is an array, the class of the result is [EdgeClustering], not
    [FuzzyNodeClustering]. *)
Lemma fuzzy_detection_lost :
  (read_community_from_json_string fuzzy_empty_community_document = Raise IndexError
   /\ read_community_json "communities.json"
        {[ "communities.json" := fuzzy_empty_community_document ]}
      = Raise IndexError)
  /\ exists nc,
       read_community_from_json_string fuzzy_edge_document = Ok nc
       /\ read_community_json "communities.json"
            {[ "communities.json" := fuzzy_edge_document ]}
          = Ok nc
       /\ Clustering.class nc <> FuzzyNodeClusteringClass.
Proof.
  split; [split; vm_compute; reflexivity|].
  eexists. split; [vm_compute; reflexivity|].
  split; [vm_compute; reflexivity|discriminate].
Qed.

(** C10, as the code has it. For a document with the required keys whose
    [communities] is an array of arrays, the first of them starting with a
    node that is not an array, [read_community_json] turns each community
    into the tuple of its entries and leaves the entries as they are,
    arrays included; the result is a [NodeClustering] when the document
    has no [allocation_matrix] and a [FuzzyNodeClustering] with the matrix
    attached when it has one, and never an [EdgeClustering]. *)
Theorem scalar_first_node
    (json_repr : string) (d : list (string * value))
    (algorithm params overlap coverage : value)
    (css : list (list value))
    (node : value) (nodes : list value) (rest : list (list value))
    (Hdoc : json_loads json_repr = Ok (VDict d))
    (Halgorithm : dict_get "algorithm" d = Some algorithm)
    (Hparams : dict_get "params" d = Some params)
    (Hoverlap : dict_get "overlap" d = Some overlap)
    (Hcoverage : dict_get "coverage" d = Some coverage)
    (Hcommunities : dict_get "communities" d = Some (node_arrays css))
    (Hfirst : css = (node :: nodes) :: rest)
    (Hnode : is_list node = false) :
  forall (fs : gmap string string) (path : string),
    fs !! path = Some json_repr ->
    read_community_json path fs
    = Ok (Clustering.mk
            (if dict_has "allocation_matrix" d
             then FuzzyNodeClusteringClass else NodeClusteringClass)
            (VList (map VTuple css)) VNone
            algorithm params overlap coverage
            (dict_get "allocation_matrix" d)).
Proof.
  intros fs path Hpath.
  apply both_readers_build in Hdoc as [_ Hfile]. rewrite (Hfile fs path Hpath).
  apply (build_nodes d algorithm params overlap coverage
           Halgorithm Hparams Hoverlap Hcoverage css node nodes rest
           Hcommunities Hfirst Hnode).
Qed.

Lemma scalar_first_node_witness :
  read_community_json "communities.json" {[ "communities.json" := mixed_document ]}
  = Ok (Clustering.mk NodeClusteringClass
          (VList [VTuple [VInt 1; VInt 2]; VTuple [VList [VInt 2; VInt 3]; VInt 4]])
          VNone (VStr "louvain") (VDict []) (VBool false) (VFloat (FDec false 1 0))
          None).
Proof.
  apply (scalar_first_node mixed_document mixed_fields
           (VStr "louvain") (VDict []) (VBool false) (VFloat (FDec false 1 0))
           [[VInt 1; VInt 2]; [VList [VInt 2; VInt 3]; VInt 4]]
           (VInt 1) [VInt 2] [[VList [VInt 2; VInt 3]; VInt 4]]).
  - vm_compute. reflexivity.
  - reflexivity.
  - reflexivity.
  - reflexivity.
  - reflexivity.
  - reflexivity.
  - reflexivity.
  - reflexivity.
  - vm_compute. reflexivity.
Defined.

(** C10 as stated fails: the first node is a number, and the result is
    not the plain variant but a [FuzzyNodeClustering]. *)
Lemma scalar_first_node_fuzzy :
  exists nc,
    read_community_json "communities.json"
      {[ "communities.json" := mixed_fuzzy_document ]}
    = Ok nc
    /\ Clustering.communities nc
       = VList [VTuple [VInt 1; VInt 2]; VTuple [VList [VInt 2; VInt 3]; VInt 4]]
    /\ Clustering.class nc = FuzzyNodeClusteringClass
    /\ Clustering.class nc <> NodeClusteringClass.
Proof.
  eexists. split; [vm_compute; reflexivity|].
  split; [reflexivity|]. split; [reflexivity|discriminate].
Qed.

(** ** The CSV reader *)

(** C8, as the code has it. [read_community_csv] returns one community
    per row of the file, blank rows included, in file order: the tuple of
    the tokens of the row, stripped of all its trailing whitespace and
    split on the delimiter, each converted by [nodetype]; the first
    failure of [split] or [nodetype] is the failure of the reader.  On
    success there are as many communities as rows, and a row that is only
    whitespace gives the community of the one token [nodetype] makes of
    the empty text.  The rows are the lines of the file: put end to end
    they are its content, and each is a line. *)
Theorem csv_reader_rows
    (fs : gmap string string) (path content delimiter : string)
    (nodetype : string -> result value)
    (Hfile : fs !! path = Some content) :
  read_community_csv path delimiter nodetype fs
  = (communities <- mapM (community_of_row delimiter nodetype) (rows content) ;;
     Ok (NodeClustering (VList communities) VNone (VStr EmptyString)
           default_method_parameters default_overlap))
  /\ (forall nc, read_community_csv path delimiter nodetype fs = Ok nc ->
        exists communities,
          Clustering.communities nc = VList communities
          /\ List.length communities = List.length (rows content))
  /\ (forall row v, rstrip row = EmptyString -> delimiter <> EmptyString ->
        nodetype EmptyString = Ok v ->
        community_of_row delimiter nodetype row = Ok (VTuple [v]))
  /\ String.concat EmptyString (rows content) = content
  /\ Forall is_line (rows content).
Proof.
  assert (E : read_community_csv path delimiter nodetype fs
              = (communities <- mapM (community_of_row delimiter nodetype)
                                     (rows content) ;;
                 Ok (NodeClustering (VList communities) VNone (VStr EmptyString)
                       default_method_parameters default_overlap))).
  { unfold read_community_csv. rewrite (open_read_lookup _ _ _ Hfile).
    cbn [bind]. rewrite for_append_nil. reflexivity. }
  split; [exact E|]. split; [|split; [|split]].
  - intros nc. rewrite E.
    destruct (mapM (community_of_row delimiter nodetype) (rows content))
      as [communities|e] eqn:Em; cbn [bind]; [|discriminate].
    intros [= <-]. exists communities. split; [reflexivity|].
    eapply mapM_length, Em.
  - intros row v Hrow Hdelim Hv. unfold community_of_row, split.
    rewrite Hrow. destruct delimiter as [|c delimiter]; [now elim Hdelim|].
    cbn [split_go bind rev text string_of_list_ascii mapM]. rewrite Hv.
    reflexivity.
  - apply rows_concat.
  - apply rows_lines.
Qed.

Lemma csv_reader_rows_witness :
  read_community_csv "communities.csv" "," nodetype_str
    {[ "communities.csv" := blank_line_file ]}
  = Ok (NodeClustering
          (VList [VTuple [VStr "a"; VStr "b"]; VTuple [VStr EmptyString];
                  VTuple [VStr "c"]])
          VNone (VStr EmptyString) default_method_parameters default_overlap).
Proof.
  destruct (csv_reader_rows {[ "communities.csv" := blank_line_file ]}
              "communities.csv" blank_line_file "," nodetype_str)
    as [E _].
  - vm_compute. reflexivity.
  - rewrite E. vm_compute. reflexivity.
Defined.

(** C8 as stated fails: the file has two non-empty lines and the reader
    returns three communities, the second being the community of the
    empty token; the reader the specification words returns two. *)
Lemma csv_reader_blank_line :
  read_community_csv "communities.csv" "," nodetype_str
    {[ "communities.csv" := blank_line_file ]}
  = Ok (NodeClustering
          (VList [VTuple [VStr "a"; VStr "b"]; VTuple [VStr EmptyString];
                  VTuple [VStr "c"]])
          VNone (VStr EmptyString) default_method_parameters default_overlap)
  /\ read_csv_as_specified blank_line_file "," nodetype_str
     = Ok [VTuple [VStr "a"; VStr "b"]; VTuple [VStr "c"]].
Proof. split; vm_compute; reflexivity. Qed.

(** ** The two JSON readers agree *)

(** C9. When the file at [path] holds the text [json_repr],
    [read_community_json] on the path and
    [read_community_from_json_string] on the text return the same
    clustering or raise the same exception. *)
Theorem readers_agree
    (fs : gmap string string) (path json_repr : string)
    (Hfile : fs !! path = Some json_repr) :
  read_community_json path fs = read_community_from_json_string json_repr.
Proof.
  rewrite read_community_json_build, read_community_from_json_string_build.
  now rewrite (open_read_lookup _ _ _ Hfile).
Qed.

Lemma readers_agree_witness :
  ({[ "communities.json" := louvain_document ]} : gmap string string)
    !! "communities.json"
  = Some louvain_document
  /\ read_community_json "communities.json"
       {[ "communities.json" := louvain_document ]}
     = read_community_from_json_string louvain_document.
Proof.
  split.
  - vm_compute. reflexivity.
  - apply readers_agree. vm_compute. reflexivity.
Defined.

(** ** Numbers read back *)



















Lemma Z_to_string_neg (p : positive) :
  Z_to_string (Z.neg p) = String "-" (N_to_string (N.pos p)).
Proof. reflexivity. Qed.


(** ** Floats read back *)



























(** ** Texts and words read back *)











(** ** Values read back *)




Lemma join_cons (sep x : string) (l : list string) :
  l <> [] -> join sep (x :: l) = x +:+ sep +:+ join sep l.
Proof. destruct l; [intros H; now elim H|reflexivity]. Qed.
















(** ** JSON round trips of clusterings *)















(** ** Failures and results of the JSON readers *)

Lemma build_not_object (coms : value) :
  (forall d, coms <> VDict d) -> build coms = Raise TypeError.
Proof.
  intros H. destruct coms; try reflexivity. now elim (H d).
Qed.

(** X4. A document that decodes to anything but an object (an array, a
    text, a number, true, false, null) makes both readers raise
    [TypeError]. *)
Theorem not_an_object_failure
    (json_repr : string) (coms : value)
    (Hdoc : json_loads json_repr = Ok coms)
    (Hnot : forall d, coms <> VDict d) :
  both_readers_give json_repr (Raise TypeError).
Proof.
  rewrite <- (build_not_object coms Hnot). now apply both_readers_build.
Qed.

Lemma not_an_object_failure_witness :
  json_loads bare_list_document
  = Ok (VList [VList [VInt 1; VInt 2]; VList [VInt 3]])
  /\ both_readers_give bare_list_document (Raise TypeError).
Proof.
  split.
  - vm_compute. reflexivity.
  - apply (not_an_object_failure bare_list_document
             (VList [VList [VInt 1; VInt 2]; VList [VInt 3]])).
    + vm_compute. reflexivity.
    + intros d. discriminate.
Defined.

Lemma build_empty_first_community
    (d : list (string * value)) (algorithm params overlap coverage : value)
    (rest : list (list value)) :
  dict_get "algorithm" d = Some algorithm ->
  dict_get "params" d = Some params ->
  dict_get "overlap" d = Some overlap ->
  dict_get "coverage" d = Some coverage ->
  dict_get "communities" d = Some (node_arrays ([] :: rest)) ->
  build (VDict d) = Raise IndexError.
Proof.
  intros Ha Hp Ho Hc Hcs.
  rewrite (build_detection d algorithm params overlap coverage Ha Hp Ho Hc
             _ _ Hcs (mapM_tuple_arrays _)).
  reflexivity.
Qed.

(** X5. A document with the required keys whose first community is an
    empty array makes both readers raise [IndexError], whatever the other
    communities hold. *)
Theorem empty_first_community_failure
    (json_repr : string) (d : list (string * value))
    (algorithm params overlap coverage : value) (rest : list (list value))
    (Hdoc : json_loads json_repr = Ok (VDict d))
    (Halgorithm : dict_get "algorithm" d = Some algorithm)
    (Hparams : dict_get "params" d = Some params)
    (Hoverlap : dict_get "overlap" d = Some overlap)
    (Hcoverage : dict_get "coverage" d = Some coverage)
    (Hcommunities : dict_get "communities" d = Some (node_arrays ([] :: rest))) :
  both_readers_give json_repr (Raise IndexError).
Proof.
  rewrite <- (build_empty_first_community d algorithm params overlap coverage rest
                Halgorithm Hparams Hoverlap Hcoverage Hcommunities).
  now apply both_readers_build.
Qed.

Lemma empty_first_community_failure_witness :
  json_loads empty_first_document = Ok (VDict empty_first_fields)
  /\ both_readers_give empty_first_document (Raise IndexError).
Proof.
  split.
  - vm_compute. reflexivity.
  - apply (empty_first_community_failure empty_first_document empty_first_fields
             (VStr "louvain") (VDict []) (VBool false) (VFloat (FDec false 1 0))
             [[VInt 1; VInt 2]]);
      vm_compute; reflexivity.
Defined.

(** The steps of [build] on an object, the class and the allocation
    matrix being set at once. *)
Lemma build_steps (d : list (string * value)) :
  build (VDict d)
  = (cs <- getitem (VDict d) "communities" ;;
     l <- iter cs ;;
     tuples <- mapM tuple l ;;
     algorithm <- getitem (VDict d) "algorithm" ;;
     params <- getitem (VDict d) "params" ;;
     overlap <- getitem (VDict d) "overlap" ;;
     coverage <- getitem (VDict d) "coverage" ;;
     first <- index (VList tuples) 0 ;;
     node <- index first 0 ;;
     if is_list node then
       cms <- mapM edge_community tuples ;;
       Ok (Clustering.set_class EdgeClusteringClass
             (Clustering.set_communities (VList cms)
                (before_detection d algorithm params overlap coverage tuples)))
     else Ok (before_detection d algorithm params overlap coverage tuples)).
Proof.
  unfold build, getitem, contains.
  destruct (dict_get "communities" d) as [cs|]; cbn [bind]; [|reflexivity].
  destruct (iter cs) as [l|]; cbn [bind]; [|reflexivity].
  destruct (mapM tuple l) as [tuples|]; cbn [bind]; [|reflexivity].
  destruct (dict_get "algorithm" d) as [algorithm|]; cbn [bind]; [|reflexivity].
  destruct (dict_get "params" d) as [params|]; cbn [bind]; [|reflexivity].
  destruct (dict_get "overlap" d) as [overlap|]; cbn [bind]; [|reflexivity].
  destruct (dict_get "coverage" d) as [coverage|]; cbn [bind]; [|reflexivity].
  unfold before_detection, dict_has.
  destruct (dict_get "allocation_matrix" d) as [m|]; cbn [bind];
    unfold Clustering.set_allocation_matrix, Clustering.set_class,
      Clustering.set_node_coverage, Clustering.set_communities, NodeClustering;
    cbn [Clustering.class Clustering.communities Clustering.graph
         Clustering.method_name Clustering.method_parameters Clustering.overlap
         Clustering.node_coverage Clustering.allocation_matrix];
    (destruct (index (VList tuples) 0) as [first|e]; [|reflexivity]);
    cbn [bind]; (destruct (index first 0) as [node|e]; [|reflexivity]);
    cbn [bind]; (destruct (is_list node); [|reflexivity]);
    cbn [bind iter]; rewrite for_append_nil;
    rewrite (mapM_ext _ edge_community)
      by (intros c; unfold edge_community; destruct (iter c);
          [cbn [bind]; now rewrite for_append_nil|reflexivity]);
    reflexivity.
Qed.


Lemma mapM_Forall {A B : Type} (P : B -> Prop) (f : A -> result B) (xs : list A)
    (ys : list B) :
  (forall x y, f x = Ok y -> P y) -> mapM f xs = Ok ys -> Forall P ys.
Proof.
  intros Hf. revert ys. induction xs as [|x xs IH]; cbn [mapM]; intros ys.
  - intros [= <-]. constructor.
  - destruct (f x) eqn:E; cbn [bind]; [|discriminate].
    destruct (mapM f xs); cbn [bind]; [|discriminate].
    intros [= <-]. constructor; [eapply Hf, E|now apply IH].
Qed.

Lemma Forall_forallb {A : Type} (f : A -> bool) (l : list A) :
  Forall (fun x => f x = true) l -> forallb f l = true.
Proof.
  induction 1 as [|x l Hx _ IH]; [reflexivity|]. cbn [forallb]. now rewrite Hx, IH.
Qed.

Lemma tuple_is_tuple (v t : value) : tuple v = Ok t -> is_tuple t = true.
Proof.
  unfold tuple. destruct (iter v); cbn [bind]; [|discriminate]. now intros [= <-].
Qed.


Lemma edge_community_tuples (c t : value) :
  edge_community c = Ok t ->
  exists es, t = VTuple es /\ forallb is_tuple es = true.
Proof.
  unfold edge_community. destruct (iter c) as [l|]; cbn [bind]; [|discriminate].
  destruct (mapM tuple l) as [es|] eqn:Em; cbn [bind]; [|discriminate].
  intros [= <-]. exists es. split; [reflexivity|].
  apply Forall_forallb.
  eapply mapM_Forall; [|exact Em]. intros x y. apply tuple_is_tuple.
Qed.





Lemma every_element_tuples (cms : list value) :
  Forall (fun t => exists es, t = VTuple es /\ forallb is_tuple es = true) cms ->
  every_element is_tuple (VList cms) = true /\ forallb is_tuple cms = true.
Proof.
  induction 1 as [|t cms [es [-> Hes]] _ [IH1 IH2]]; [split; reflexivity|].
  cbn [every_element forallb is_tuple] in *. now rewrite Hes, IH1, IH2.
Qed.

Lemma build_well_formed (coms : value) (nc : Clustering.t) :
  build coms = Ok nc -> well_formed_result nc.
Proof.
  destruct coms as [| | | | | | |d]; try discriminate.
  rewrite build_steps. unfold getitem.
  destruct (dict_get "communities" d) as [cs|]; cbn [bind]; [|discriminate].
  destruct (iter cs) as [l|]; cbn [bind]; [|discriminate].
  destruct (mapM tuple l) as [tuples|] eqn:Et; cbn [bind]; [|discriminate].
  destruct (dict_get "algorithm" d) as [algorithm|]; cbn [bind]; [|discriminate].
  destruct (dict_get "params" d) as [params|]; cbn [bind]; [|discriminate].
  destruct (dict_get "overlap" d) as [overlap|]; cbn [bind]; [|discriminate].
  destruct (dict_get "coverage" d) as [coverage|]; cbn [bind]; [|discriminate].
  assert (Htuples : Forall (fun t => is_tuple t = true) tuples).
  { eapply mapM_Forall; [|exact Et]. intros x y. apply tuple_is_tuple. }
  destruct tuples as [|first tuples']; cbn [index nth_error bind]; [discriminate|].
  inversion Htuples as [|? ? Hfirst Hrest]; subst.
  destruct first as [| | | | | |items|]; try discriminate Hfirst.
  destruct items as [|node nodes]; cbn [index nth_error bind]; [discriminate|].
  destruct (is_list node) eqn:Hnode.
  - destruct (mapM edge_community (VTuple (node :: nodes) :: tuples')) as [cms|] eqn:Em;
      cbn [bind]; [|discriminate].
    intros [= <-].
    assert (Hcms : Forall (fun t => exists es, t = VTuple es
                                               /\ forallb is_tuple es = true) cms).
    { eapply mapM_Forall; [|exact Em]. intros x y. apply edge_community_tuples. }
    destruct (every_element_tuples cms Hcms) as [Hall Htup].
    cbn [mapM] in Em.
    destruct (edge_community (VTuple (node :: nodes))) as [c1|] eqn:E1;
      cbn [bind] in Em; [|discriminate].
    destruct (mapM edge_community tuples') as [cms'|]; cbn [bind] in Em;
      [|discriminate].
    injection Em as <-.
    unfold edge_community in E1. cbn [iter bind mapM] in E1.
    destruct (tuple node) as [t1|]; cbn [bind] in E1; [|discriminate].
    destruct (mapM tuple nodes) as [ts|]; cbn [bind] in E1; [|discriminate].
    injection E1 as <-.
    exists t1, ts, cms'. cbn [forallb] in Htup.
    apply andb_true_iff in Htup as [_ Htup].
    repeat split; [exact Htup|exact Hall].
  - intros [= <-]. exists node, nodes, tuples'.
    split; [reflexivity|]. split; [now apply Forall_forallb|].
    split; [reflexivity|].
    unfold before_detection, dict_has. cbn [Clustering.class Clustering.allocation_matrix].
    destruct (dict_get "allocation_matrix" d); split; try assumption;
      [discriminate|reflexivity].
Qed.

(** X7. The clusterings the JSON readers return.  Whatever the text and
    the file, a clustering returned by either reader has a first community
    with a first node, holds every community as a tuple and no graph; an
    [EdgeClustering] holds tuples only, a [NodeClustering] and a
    [FuzzyNodeClustering] start with a node that is not a list, and only
    the [FuzzyNodeClustering] has an allocation matrix. *)
Theorem json_reader_results
    (json_repr : string) (path : string) (fs : gmap string string)
    (nc : Clustering.t) :
  (read_community_from_json_string json_repr = Ok nc -> well_formed_result nc)
  /\ (read_community_json path fs = Ok nc -> well_formed_result nc).
Proof.
  split.
  - rewrite read_community_from_json_string_build.
    destruct (json_loads json_repr) as [coms|]; cbn [bind]; [|discriminate].
    apply build_well_formed.
  - rewrite read_community_json_build.
    destruct (open_read path fs) as [f|]; cbn [bind]; [|discriminate].
    destruct (json_loads f) as [coms|]; cbn [bind]; [|discriminate].
    apply build_well_formed.
Qed.

Lemma json_reader_results_witness :
  read_community_from_json_string louvain_document = Ok louvain_result
  /\ well_formed_result louvain_result.
Proof.
  split.
  - vm_compute. reflexivity.
  - apply (proj1 (json_reader_results louvain_document EmptyString ∅
                    louvain_result)).
    vm_compute. reflexivity.
Defined.

(** ** The CSV writer *)

Lemma write_rows_app (delimiter : string) (cs1 cs2 : list value)
    (iss : list (list value)) :
  mapM iter cs1 = Ok iss ->
  forall buf,
    write_rows delimiter (cs1 ++ cs2) buf
    = write_rows delimiter cs2 (buf +:+ csv_text delimiter iss).
Proof.
  revert iss. induction cs1 as [|c cs1 IH]; intros iss Hm buf.
  - injection Hm as <-. cbn [app]. unfold csv_text. cbn [map String.concat].
    now rewrite append_empty_r.
  - cbn [mapM] in Hm. destruct (iter c) as [items|] eqn:Ei; cbn [bind] in Hm;
      [|discriminate].
    destruct (mapM iter cs1) as [iss'|]; cbn [bind] in Hm; [|discriminate].
    injection Hm as <-. cbn [app write_rows]. rewrite Ei.
    rewrite (IH iss' eq_refl). unfold csv_text. cbn [map].
    rewrite concat_cons. unfold csv_line. now rewrite !append_assoc.
Qed.

(** X8. What [write_community_csv] writes.  When every community can be
    iterated, the file holds one line per community, in order: the texts
    of its nodes joined by the delimiter and ended by a line feed; the
    writer reports no error and whatever the file held before is gone. *)
Theorem csv_writer_lines
    (communities : Clustering.t) (path delimiter : string)
    (fs : gmap string string) (cs : list value) (iss : list (list value))
    (Hcommunities : iter (Clustering.communities communities) = Ok cs)
    (Hitems : mapM iter cs = Ok iss) :
  write_community_csv communities path delimiter fs
  = (<[path := csv_text delimiter iss]> fs, Ok tt).
Proof.
  unfold write_community_csv. rewrite Hcommunities.
  rewrite <- (app_nil_r cs), (write_rows_app delimiter cs [] iss Hitems).
  reflexivity.
Qed.

Lemma csv_writer_lines_witness :
  write_community_csv louvain_result "communities.csv" ";" ∅
  = (<["communities.csv" := csv_text ";" [[VInt 1; VInt 2]; [VInt 3]]]> ∅,
     Ok tt).
Proof.
  apply (csv_writer_lines louvain_result "communities.csv" ";" ∅
           [VTuple [VInt 1; VInt 2]; VTuple [VInt 3]]);
    reflexivity.
Defined.

(** X9. A failed write leaves a truncated file.  When a community cannot
    be iterated, [write_community_csv] raises [TypeError] and the file
    holds the lines of the communities before it and nothing else; when
    the communities themselves cannot be iterated the file is left empty. *)
Theorem csv_writer_truncates
    (communities : Clustering.t) (path delimiter : string)
    (fs : gmap string string) :
  (forall e, iter (Clustering.communities communities) = Raise e ->
     write_community_csv communities path delimiter fs
     = (<[path := EmptyString]> fs, Raise TypeError))
  /\ (forall cs1 bad cs2 iss e,
        iter (Clustering.communities communities) = Ok (cs1 ++ bad :: cs2) ->
        mapM iter cs1 = Ok iss ->
        iter bad = Raise e ->
        write_community_csv communities path delimiter fs
        = (<[path := csv_text delimiter iss]> fs, Raise TypeError)).
Proof.
  split.
  - intros e He. unfold write_community_csv. rewrite He.
    now rewrite (iter_raise _ _ He).
  - intros cs1 bad cs2 iss e Hc Hm Hbad. unfold write_community_csv. rewrite Hc.
    rewrite (write_rows_app delimiter cs1 (bad :: cs2) iss Hm).
    cbn [write_rows]. rewrite Hbad, (iter_raise _ _ Hbad). reflexivity.
Qed.

Lemma csv_writer_truncates_witness :
  write_community_csv broken_partition "communities.csv" "," ∅
  = (<["communities.csv" := csv_text "," [[VInt 1; VInt 2]]]> ∅,
     Raise TypeError).
Proof.
  apply (proj2 (csv_writer_truncates broken_partition "communities.csv" "," ∅)
           [VTuple [VInt 1; VInt 2]] (VInt 7) [VTuple [VInt 3]]
           [[VInt 1; VInt 2]] TypeError);
    reflexivity.
Defined.

(** ** CSV round trips *)















Lemma prefix_drop (p s : string) :
  String.prefix p s = true ->
  s = p +:+ string_drop (String.length p) s
  /\ (String.length p <= String.length s)%nat.
Proof.
  revert s. induction p as [|a p IH]; intros s H.
  - split; [reflexivity|cbn; lia].
  - destruct s as [|b s]; [discriminate|]. cbn [String.prefix] in H.
    destruct (ascii_dec a b) as [->|]; [|discriminate].
    destruct (IH s H) as [E Hl]. cbn [String.length string_drop].
    rewrite append_cons, <- E. split; [reflexivity|lia].
Qed.

Lemma split_go_nonempty (sep : string) (s : string) :
  forall skip cur, split_go sep skip cur s <> [].
Proof.
  induction s as [|c s IH]; intros skip cur; cbn [split_go]; [discriminate|].
  destruct skip; [|apply IH].
  destruct (String.prefix sep (String c s)); [discriminate|apply IH].
Qed.

(** Joining what [split] cut gives the text again. *)
Lemma join_split_go (sep : string) (s : string) :
  sep <> EmptyString ->
  forall skip cur,
    (skip <= String.length s)%nat ->
    join sep (split_go sep skip cur s) = text (rev cur) +:+ string_drop skip s.
Proof.
  intros Hsep. induction s as [|c s IH]; intros skip cur Hk.
  - cbn [String.length] in Hk. replace skip with 0%nat by lia.
    cbn [split_go join String.concat string_drop]. now rewrite append_empty_r.
  - cbn [split_go]. destruct skip as [|k].
    + cbn [string_drop].
      destruct (String.prefix sep (String c s)) eqn:Ep.
      * destruct (prefix_drop _ _ Ep) as [E Hl].
        destruct sep as [|a sep']; [now elim Hsep|].
        cbn [String.length string_drop] in E, Hl.
        rewrite join_cons by apply split_go_nonempty.
        cbn [String.length Nat.sub]. rewrite Nat.sub_0_r.
        rewrite IH by lia. cbn [rev text string_of_list_ascii].
        rewrite append_empty_l, <- E. reflexivity.
      * rewrite IH by lia. cbn [string_drop]. apply text_snoc.
    + cbn [string_drop]. cbn [String.length] in Hk. apply IH. lia.
Qed.

Lemma join_split (s sep : string) (toks : list string) :
  split s sep = Ok toks -> join sep toks = s /\ sep <> EmptyString.
Proof.
  unfold split. destruct sep as [|a sep'] eqn:E; [discriminate|].
  intros [= <-]. split; [|discriminate].
  rewrite join_split_go by (discriminate || lia). reflexivity.
Qed.

Lemma mapM_nodetype_str (toks : list string) :
  mapM nodetype_str toks = Ok (map VStr toks).
Proof. apply mapM_total. reflexivity. Qed.

Lemma map_str_VStr (toks : list string) : map str (map VStr toks) = toks.
Proof. rewrite map_map. apply map_id. Qed.

Lemma rows_read_as_text (delimiter : string) (rs : list string) (cs : list value) :
  mapM (community_of_row delimiter nodetype_str) rs = Ok cs ->
  exists iss,
    mapM iter cs = Ok iss
    /\ csv_text delimiter iss
       = String.concat EmptyString (map (fun row => rstrip row +:+ str1 newline) rs).
Proof.
  revert cs. induction rs as [|row rs IH]; intros cs; cbn [mapM].
  - intros [= <-]. exists []. split; reflexivity.
  - unfold community_of_row at 1.
    destruct (split (rstrip row) delimiter) as [toks|] eqn:Es; cbn [bind];
      [|discriminate].
    rewrite mapM_nodetype_str. cbn [bind].
    destruct (mapM (community_of_row delimiter nodetype_str) rs) as [cs'|];
      cbn [bind]; [|discriminate].
    intros [= <-]. destruct (IH cs' eq_refl) as [iss [Hi Ht]].
    exists (map VStr toks :: iss). cbn [mapM iter bind]. rewrite Hi. cbn [bind].
    split; [reflexivity|].
    unfold csv_text in *. cbn [map]. rewrite !concat_cons, Ht.
    unfold csv_line. rewrite map_str_VStr.
    now rewrite (proj1 (join_split _ _ _ Es)).
Qed.

(** X11. Writing what was read from a CSV file.  When
    [read_community_csv] with [nodetype=str] returns a clustering from a
    file, [write_community_csv] with the same delimiter writes for it the
    rows of that file, each stripped of its trailing whitespace and ended
    by a line feed: nothing else of the file is lost, whatever the
    delimiter and whether or not a node text holds it. *)
Theorem csv_write_what_was_read
    (fs : gmap string string) (path content delimiter : string)
    (nc : Clustering.t)
    (Hfile : fs !! path = Some content)
    (Hread : read_community_csv path delimiter nodetype_str fs = Ok nc) :
  forall (path' : string) (fs' : gmap string string),
    write_community_csv nc path' delimiter fs'
    = (<[path' := stripped_rows content]> fs', Ok tt).
Proof.
  intros path' fs'. unfold read_community_csv in Hread.
  rewrite (open_read_lookup _ _ _ Hfile) in Hread. cbn [bind] in Hread.
  rewrite for_append_nil in Hread.
  fold (community_of_row delimiter nodetype_str) in Hread.
  destruct (mapM (community_of_row delimiter nodetype_str) (rows content))
    as [cs|] eqn:Em; cbn [bind] in Hread; [|discriminate].
  injection Hread as <-.
  destruct (rows_read_as_text delimiter _ _ Em) as [iss [Hi Ht]].
  unfold write_community_csv, NodeClustering. cbn [Clustering.communities iter].
  rewrite <- (app_nil_r cs), (write_rows_app delimiter cs [] iss Hi).
  cbn [write_rows]. rewrite append_empty_l, Ht. reflexivity.
Qed.

Lemma csv_write_what_was_read_witness :
  read_community_csv "communities.csv" "," nodetype_str
    {[ "communities.csv" := blank_line_file ]}
  = Ok (NodeClustering
          (VList [VTuple [VStr "a"; VStr "b"]; VTuple [VStr EmptyString];
                  VTuple [VStr "c"]])
          VNone (VStr EmptyString) default_method_parameters default_overlap)
  /\ write_community_csv
       (NodeClustering
          (VList [VTuple [VStr "a"; VStr "b"]; VTuple [VStr EmptyString];
                  VTuple [VStr "c"]])
          VNone (VStr EmptyString) default_method_parameters default_overlap)
       "copy.csv" "," ∅
     = (<["copy.csv" := stripped_rows blank_line_file]> ∅, Ok tt).
Proof.
  split.
  - vm_compute. reflexivity.
  - apply (csv_write_what_was_read {[ "communities.csv" := blank_line_file ]}
             "communities.csv" blank_line_file ",");
      vm_compute; reflexivity.
Defined.

(** ** Edge cases of the CSV reader *)

Lemma rows_not_empty (content : string) :
  content <> EmptyString -> rows content <> [].
Proof.
  intros Hc Hr. apply Hc. rewrite <- (rows_concat content), Hr. reflexivity.
Qed.

(** X12. Empty file and empty delimiter.  From an empty file
    [read_community_csv] returns a clustering without communities,
    whatever the delimiter and the node type; from a file that is not
    empty it raises [ValueError] when the delimiter is the empty text. *)
Theorem csv_reader_edge_cases
    (fs : gmap string string) (path content delimiter : string)
    (nodetype : string -> result value)
    (Hfile : fs !! path = Some content) :
  (content = EmptyString ->
   read_community_csv path delimiter nodetype fs
   = Ok (NodeClustering (VList []) VNone (VStr EmptyString)
           default_method_parameters default_overlap))
  /\ (content <> EmptyString -> delimiter = EmptyString ->
      read_community_csv path delimiter nodetype fs = Raise ValueError).
Proof.
  unfold read_community_csv. rewrite (open_read_lookup _ _ _ Hfile). cbn [bind].
  split.
  - intros ->. reflexivity.
  - intros Hc ->. pose proof (rows_not_empty content Hc) as Hr.
    destruct (rows content) as [|row rs]; [now elim Hr|]. reflexivity.
Qed.

Lemma csv_reader_edge_cases_witness :
  read_community_csv "communities.csv" EmptyString nodetype_str
    {[ "communities.csv" := EmptyString ]}
  = Ok (NodeClustering (VList []) VNone (VStr EmptyString)
          default_method_parameters default_overlap)
  /\ read_community_csv "communities.csv" EmptyString nodetype_str
       {[ "communities.csv" := blank_line_file ]}
     = Raise ValueError.
Proof.
  split.
  - destruct (csv_reader_edge_cases {[ "communities.csv" := EmptyString ]}
                "communities.csv" EmptyString EmptyString nodetype_str)
      as [Hempty _].
    + vm_compute. reflexivity.
    + apply Hempty. reflexivity.
  - destruct (csv_reader_edge_cases {[ "communities.csv" := blank_line_file ]}
                "communities.csv" blank_line_file EmptyString nodetype_str)
      as [_ Hdelimiter].
    + vm_compute. reflexivity.
    + apply Hdelimiter; [discriminate|reflexivity].
Defined.

(** ** What the JSON readers look at *)

Lemma build_six_keys (d1 d2 : list (string * value)) :
  (forall k, In k ("allocation_matrix" :: required_keys) ->
     dict_get k d1 = dict_get k d2) ->
  build (VDict d1) = build (VDict d2).
Proof.
  intros Hsame. unfold build, getitem, contains, dict_has.
  rewrite (Hsame "communities"), (Hsame "algorithm"), (Hsame "params"),
    (Hsame "overlap"), (Hsame "coverage"), (Hsame "allocation_matrix");
    (reflexivity || (cbn; tauto)).
Qed.

(** X13. The readers look at six keys only.  Two JSON objects that hold
    the same values under [communities], [algorithm], [params], [overlap],
    [coverage] and [allocation_matrix] (or lack the same ones of them) are
    read alike by [read_community_from_json_string] and by
    [read_community_json], result or exception: the order of the keys and
    every other key of the object are ignored. *)
Theorem readers_read_six_keys
    (json_repr1 json_repr2 : string) (d1 d2 : list (string * value))
    (Hdoc1 : json_loads json_repr1 = Ok (VDict d1))
    (Hdoc2 : json_loads json_repr2 = Ok (VDict d2))
    (Hsame : forall k, In k ("allocation_matrix" :: required_keys) ->
               dict_get k d1 = dict_get k d2) :
  read_community_from_json_string json_repr1
  = read_community_from_json_string json_repr2
  /\ forall (fs1 fs2 : gmap string string) (path1 path2 : string),
       fs1 !! path1 = Some json_repr1 -> fs2 !! path2 = Some json_repr2 ->
       read_community_json path1 fs1 = read_community_json path2 fs2.
Proof.
  pose proof (build_six_keys d1 d2 Hsame) as Hbuild.
  destruct (both_readers_build _ _ Hdoc1) as [Hs1 Hf1].
  destruct (both_readers_build _ _ Hdoc2) as [Hs2 Hf2].
  split.
  - now rewrite Hs1, Hs2.
  - intros fs1 fs2 path1 path2 Hfile1 Hfile2.
    now rewrite (Hf1 _ _ Hfile1), (Hf2 _ _ Hfile2).
Qed.

Lemma readers_read_six_keys_witness :
  read_community_from_json_string fuzzy_document
  = read_community_from_json_string fuzzy_document_reordered
  /\ read_community_json "a.json" {[ "a.json" := fuzzy_document ]}
     = read_community_json "b.json" {[ "b.json" := fuzzy_document_reordered ]}.
Proof.
  destruct (readers_read_six_keys fuzzy_document fuzzy_document_reordered
              fuzzy_fields (rev fuzzy_fields))
    as [Hstring Hfile].
  - vm_compute. reflexivity.
  - vm_compute. reflexivity.
  - intros k [<-|[<-|[<-|[<-|[<-|[<-|[]]]]]]]; reflexivity.
  - split; [exact Hstring|].
    apply Hfile; vm_compute; reflexivity.
Defined.

(** ** Failures of the CSV reader *)



